(** * Bottery: the Telegram platform adapter

    A shallow embedding of [bottery/platform/telegram.py]: the remote API
    proxy ([TelegramAPI]), the user and message translation
    ([TelegramUser], [build_message]), the dispatch pipeline
    ([message_handler]), the two ingestion modes ([configure_polling],
    [polling], [configure_webhook], [webhook]) and the mode selection
    ([configure]).

    Python values that come from decoded JSON are modelled by [json];
    exceptions by [exn] and [result]; coroutines by the resumption type
    [coro], run by an explicit model of the asyncio event loop ([step]). *)

From Stdlib Require Import ZArith Ascii String.
From stdpp Require Import base option list gmap strings.

Set Warnings "-register-all".
Open Scope string_scope.
Open Scope list_scope.
Open Scope Z_scope.

(** ** Python values *)

(** What [json.loads] produces: [None], [bool], [int], [str], [list] and
    [dict] with string keys.  Numbers are the integers; no claim touches a
    non-integral number. *)
Inductive json :=
| JNull
| JBool (b : bool)
| JNum (z : Z)
| JStr (s : string)
| JArr (l : list json)
| JObj (m : gmap string json).

(** The exceptions the module can raise, by class. *)
Inductive exn :=
| AttributeError
| KeyError (key : string)
| TypeError
| IndexError
| ImproperlyConfigured (msg : string)
| RemoteError (what : string).

(** The outcome of evaluating an expression: a value, or a raised exception. *)
Inductive result (A : Type) :=
| Ok (a : A)
| Raise (e : exn).
Arguments Ok {A} a.
Arguments Raise {A} e.

#[global] Instance result_ret : MRet result := fun A a => Ok a.

#[global] Instance result_bind : MBind result := fun A B f r =>
  match r with
  | Ok a => f a
  | Raise e => Raise e
  end.

(** ** Built-in operations on Python values *)
Module Py.

(** [bool(v)]: the truth value tested by [if v:] and [if not v:]. *)
Definition truthy (v : json) : bool :=
  match v with
  | JNull => false
  | JBool b => b
  | JNum z => negb (z =? 0)
  | JStr s => negb (String.eqb s "")
  | JArr l => match l with [] => false | _ :: _ => true end
  | JObj m => negb (bool_decide (m = ∅))
  end.

(** [d.get(k)]: only a dict has the method. *)
Definition get (d : json) (k : string) : result json :=
  match d with
  | JObj m => Ok (default JNull (m !! k))
  | _ => Raise AttributeError
  end.

(** [d.get(k, dflt)]. *)
Definition get_default (d : json) (k : string) (dflt : json) : result json :=
  match d with
  | JObj m => Ok (default dflt (m !! k))
  | _ => Raise AttributeError
  end.

(** [d[k]] with a string key [k]. *)
Definition getitem (d : json) (k : string) : result json :=
  match d with
  | JObj m => match m !! k with
              | Some v => Ok v
              | None => Raise (KeyError k)
              end
  | _ => Raise TypeError
  end.

(** [len(v)]. *)
Definition len (v : json) : result nat :=
  match v with
  | JArr l => Ok (length l)
  | JStr s => Ok (String.length s)
  | JObj m => Ok (size m)
  | _ => Raise TypeError
  end.

Fixpoint last_char (s : string) : option ascii :=
  match s with
  | EmptyString => None
  | String c EmptyString => Some c
  | String _ s' => last_char s'
  end.

(** [v[-1]]. A decoded object has string keys only, so [-1] is no key. *)
Definition getitem_last (v : json) : result json :=
  match v with
  | JArr l => match last l with
              | Some x => Ok x
              | None => Raise IndexError
              end
  | JStr s => match last_char s with
              | Some c => Ok (JStr (String c EmptyString))
              | None => Raise IndexError
              end
  | JObj _ => Raise (KeyError "-1")
  | _ => Raise TypeError
  end.

Fixpoint chars (s : string) : list json :=
  match s with
  | EmptyString => []
  | String c s' => JStr (String c EmptyString) :: chars s'
  end.

(** The items a [for] loop or comprehension draws from [v]
    (a dict yields its keys). *)
Definition iter (v : json) : result (list json) :=
  match v with
  | JArr l => Ok l
  | JStr s => Ok (chars s)
  | JObj m => Ok (JStr <$> (map_to_list m).*1)
  | _ => Raise TypeError
  end.

(** [v + 1]. *)
Definition add1 (v : json) : result json :=
  match v with
  | JNum z => Ok (JNum (z + 1))
  | JBool b => Ok (JNum ((if b then 1 else 0) + 1))
  | _ => Raise TypeError
  end.

(** *** [str] methods, on ASCII text *)

Definition is_upper (c : ascii) : bool :=
  let n := nat_of_ascii c in Nat.leb 65 n && Nat.leb n 90.

Definition is_lower (c : ascii) : bool :=
  let n := nat_of_ascii c in Nat.leb 97 n && Nat.leb n 122.

Definition to_lower (c : ascii) : ascii :=
  if is_upper c then ascii_of_nat (nat_of_ascii c + 32) else c.

Definition to_upper (c : ascii) : ascii :=
  if is_lower c then ascii_of_nat (nat_of_ascii c - 32) else c.

(** [s.lower()]. *)
Fixpoint lower (s : string) : string :=
  match s with
  | EmptyString => EmptyString
  | String c s' => String (to_lower c) (lower s')
  end.

(** [s.title()]: a cased character is upper-cased when it follows an
    uncased one (or starts the string) and lower-cased otherwise. *)
Fixpoint title_from (previous_is_cased : bool) (s : string) : string :=
  match s with
  | EmptyString => EmptyString
  | String c s' =>
      if is_lower c || is_upper c
      then String (if previous_is_cased then to_lower c else to_upper c)
                  (title_from true s')
      else String c (title_from false s')
  end.

Definition title (s : string) : string := title_from false s.

(** [s.split(sep)] for a one-character separator: never the empty list. *)
Fixpoint split (sep : ascii) (s : string) : list string :=
  match s with
  | EmptyString => [EmptyString]
  | String c s' =>
      if Ascii.eqb c sep then EmptyString :: split sep s'
      else match split sep s' with
           | w :: ws => String c w :: ws
           | [] => [String c EmptyString]
           end
  end.

(** [''.join(l)]. *)
Definition join (l : list string) : string := foldr String.append EmptyString l.

End Py.

(** ** The remote API proxy *)

(** [session.post(url, json=kwargs)]: the one way the module reaches the
    network. *)
Record request := Request { url : string; body : json }.

(** [mixed_case]: [delete_webhook] becomes [deleteWebhook]. [split] never
    returns the empty list, so [words[0]] exists. *)
Definition mixed_case (s : string) : string :=
  let words := Py.split "_" s in
  match words with
  | [] => EmptyString
  | w0 :: ws => Py.lower w0 +:+ Py.join (Py.title <$> ws)
  end.

Module TelegramAPI.

(** The instance attributes; [session] is the HTTP client, whose calls
    are the [request]s. *)
Record t := Build { token : string }.

Definition api_url : string := "https://api.telegram.org".

Definition methods : list string :=
  ["delete_webhook"; "send_message"; "set_webhook"; "get_updates"].

(** ['{}/bot{}/{}'.format(self.api_url, self.token, method_name)]. *)
Definition make_url (self : t) (method_name : string) : string :=
  let method_name := mixed_case method_name in
  api_url +:+ "/bot" +:+ token self +:+ "/" +:+ method_name.

(** [__getattr__]: the callable for an allowed name, [AttributeError]
    for any other. *)
Definition __getattr__ (self : t) (attr : string) : result (json -> request) :=
  if negb (bool_decide (attr ∈ methods)) then Raise AttributeError
  else
    let url := make_url self attr in
    Ok (fun kwargs => Request url kwargs).

End TelegramAPI.

(** ** Users and messages *)

Module TelegramUser.

Record t := Build {
  id : json;
  first_name : json;
  last_name : json;
  username : json;
  language : json
}.

(** [TelegramUser(sender)]. *)
Definition __init__ (sender : json) : result t :=
  id ← Py.getitem sender "id";
  first_name ← Py.getitem sender "first_name";
  last_name ← Py.get sender "last_name";
  username ← Py.get sender "username";
  language ← Py.get sender "language_code";
  Ok (Build id first_name last_name username language).

End TelegramUser.

Module Message.

(** Modelled from the spec: the class [bottery.message.Message], of which
    the source only has the constructor call.  The canonical message is
    the record of the six keyword arguments it is built from: id, platform
    tag, text, user, timestamp and the raw payload. *)
Record t := Build {
  id : json;
  platform : string;
  text : json;
  user : TelegramUser.t;
  timestamp : json;
  raw : json
}.

End Message.

(** ** Effects and coroutines *)

(** An argument of a log record. *)
Inductive logarg :=
| LStr (s : string)
| LUser (u : TelegramUser.t).

(** What a coroutine does to the world outside it. *)
Inductive event :=
| Post (rq : request)                                  (* session.post(...) *)
| Log (level : string) (template : string) (args : list logarg)
| TasksAppend (name : string)                          (* self.tasks.append(...) *)
| RouterAddPost (path : string) (handler : string).    (* router.add_post(...) *)

(** A coroutine, as the resumption the event loop drives.  [Await] is an
    [await] on an HTTP call (and on the decoding of its body): the
    continuation receives the decoded reply, or the exception the call
    raised.  [Gather cs k] is [await asyncio.gather( *cs)] followed by [k];
    [EnsureFuturePolling last_update k] is
    [asyncio.ensure_future(self.polling(last_update))] followed by [k]. *)
Inductive coro :=
| Done (r : result unit)
| Do (ev : event) (k : coro)
| Await (rq : request) (k : result json -> coro)
| Gather (cs : list coro) (k : coro)
| EnsureFuturePolling (last_update : json) (k : coro).

(** An exception nobody catches ends the coroutine. *)
Definition ok_then {A : Type} (r : result A) (k : A -> coro) : coro :=
  match r with
  | Ok a => k a
  | Raise e => Done (Raise e)
  end.

(** [await self.api.<name>( **kwargs)] for a name the proxy resolves through
    its hook [__getattr__], as the four names the engine calls are (see
    [getattr_proxy] for the other names). *)
Definition call (api : TelegramAPI.t) (name : string) (kwargs : json)
    (k : result json -> coro) : coro :=
  ok_then (TelegramAPI.__getattr__ api name) (fun f => Await (f kwargs) k).

(** ** The engine *)

Module TelegramEngine.

Record t := Build {
  api : TelegramAPI.t;
  engine_name : string;
  mode : string
}.

Definition platform : string := "telegram".

(** [__init__]: the base class has stored the settings of the engine as
    attributes; [configured_mode] is [None] when it has set no [mode]. *)
Definition __init__ (token engine_name : string) (configured_mode : option string) : t :=
  Build (TelegramAPI.Build token) engine_name
        (match configured_mode with
         | Some m => m
         | None => "polling"
         end).

(** [build_message]. *)
Definition build_message (self : t) (data : json) : result (option Message.t) :=
  message_data ← Py.get data "message";
  if negb (Py.truthy message_data) then Ok None
  else
    id ← Py.getitem message_data "message_id";
    text ← Py.getitem message_data "text";
    sender ← Py.getitem message_data "from";
    user ← TelegramUser.__init__ sender;
    timestamp ← Py.getitem message_data "date";
    Ok (Some (Message.Build id platform text user timestamp data)).

Section Collaborators.

(** The resolver and the response rendering of the framework, and the
    settings object, are outside this module. *)
Variable view : Type.
Variable discover_view : Message.t -> option view.
Variable get_response : view -> Message.t -> result json.
Variable settings : string -> result json.   (* getattr(settings, name) *)

(** [message_handler]. Reading [message.user] of [None] raises
    [AttributeError]. *)
Definition message_handler (self : t) (data : json) : coro :=
  ok_then (build_message self data) (fun message =>
  ok_then (match message with
       | Some m => Ok m
       | None => Raise AttributeError
       end) (fun message =>
  Do (Log "info" "[%s] Message from %s"
          [LStr (engine_name self); LUser (Message.user message)])
  match discover_view message with
  | None => Done (Ok tt)
  | Some view =>
      ok_then (get_response view message) (fun response =>
      call (api self) "send_message"
           (JObj (<["chat_id" := TelegramUser.id (Message.user message)]>
                 (<["text" := response]>
                 (<["parser_mode" := JStr "markdown"]> ∅))))
           (fun reply => ok_then reply (fun _ => Done (Ok tt))))
  end)).

(** The request payload of [polling]: [offset] only for a true
    [last_update]. *)
Definition polling_payload (last_update : json) : result json :=
  if Py.truthy last_update
  then offset ← Py.add1 last_update; Ok (JObj {["offset" := offset]})
  else Ok (JObj ∅).

(** The cursor after a reply: the identifier of its last update, if it
    has one. *)
Definition polling_cursor (last_update updates : json) : result json :=
  result ← Py.get_default updates "result" (JArr []);
  n ← Py.len result;
  if negb (Nat.eqb n 0)
  then result ← Py.getitem updates "result";
       last ← Py.getitem_last result;
       Py.getitem last "update_id"
  else Ok last_update.

(** [polling]: one iteration; the next one is a new task. *)
Definition polling (self : t) (last_update : json) : coro :=
  ok_then (polling_payload last_update) (fun payload =>
  call (api self) "get_updates" payload (fun reply =>
  ok_then reply (fun updates =>
  ok_then (polling_cursor last_update updates) (fun last_update =>
  ok_then (result ← Py.getitem updates "result"; Py.iter result) (fun msgs =>
  Gather (message_handler self <$> msgs)
  (EnsureFuturePolling last_update
  (Done (Ok tt)))))))).

(** [configure_polling]. *)
Definition configure_polling (self : t) : coro :=
  call (api self) "delete_webhook" (JObj ∅) (fun reply =>
  ok_then reply (fun response =>
  ok_then (Py.getitem response "ok") (fun ok =>
  let k := Do (TasksAppend "polling") (Done (Ok tt)) in
  if Py.truthy ok
  then Do (Log "debug" "[%s] Polling mode set" [LStr (engine_name self)]) k
  else k))).

(** [webhook]: [request] is the outcome of [await request.json()], the
    decoded body or the exception of the decoding; the empty response it
    returns is the [Ok tt]. *)
Definition webhook (self : t) (request : result json) : coro :=
  ok_then request (fun update =>
  Gather [message_handler self update] (Done (Ok tt))).

(** [configure_webhook]. *)
Definition configure_webhook (self : t) : coro :=
  ok_then (settings "HOSTNAME") (fun hostname =>
  if negb (Py.truthy hostname)
  then Done (Raise (ImproperlyConfigured "Missing HOSTNAME setting"))
  else
    call (api self) "set_webhook" (JObj {["url" := hostname]}) (fun reply =>
    ok_then reply (fun response =>
    ok_then (Py.getitem response "ok") (fun ok =>
    let k := Do (RouterAddPost "/" "webhook") (Done (Ok tt)) in
    if Py.truthy ok
    then Do (Log "debug" "[%s] Webhook mode set" [LStr (engine_name self)]) k
    else k)))).

(** [getattr(self, method_name, None)] for a name of the form
    [configure_...]: the two routines this class defines. *)
Definition getattr_configure (self : t) (method_name : string) : option coro :=
  if String.eqb method_name "configure_polling" then Some (configure_polling self)
  else if String.eqb method_name "configure_webhook" then Some (configure_webhook self)
  else None.

(** [configure]. *)
Definition configure (self : t) : coro :=
  let method_name := "configure_" +:+ mode self in
  match getattr_configure self method_name with
  | None =>
      let msg := "There's no method to configure " +:+ mode self +:+ " mode" in
      Done (Raise (ImproperlyConfigured msg))
  | Some configure_mode => configure_mode
  end.

End Collaborators.

End TelegramEngine.

(** ** The asyncio event loop *)

(** A task of the loop: a coroutine that can run (or is done), one
    suspended on an HTTP call, or one suspended in [gather] on the tasks
    it made of the awaitables. *)
Inductive task :=
| Running (c : coro)
| Awaiting (k : result json -> coro)
| Joining (children : list nat) (k : coro).

Definition finished (t : task) : bool :=
  match t with
  | Running (Done _) => true
  | _ => false
  end.

Definition returned (t : task) : bool :=
  match t with
  | Running (Done (Ok _)) => true
  | _ => false
  end.

Definition raised (t : task) : option exn :=
  match t with
  | Running (Done (Raise e)) => Some e
  | _ => None
  end.

(** The exception of the [n]-th child, if that child has raised. *)
Definition raised_child (p : list task) (children : list nat) (n : nat) : option exn :=
  match children !! n with
  | Some j => match p !! j with
              | Some t => raised t
              | None => None
              end
  | None => None
  end.

(** Every child has returned. *)
Definition all_returned (p : list task) (children : list nat) : bool :=
  forallb (fun j => match p !! j with
                    | Some t => returned t
                    | None => false
                    end) children.

(** One move of the loop: which task it resumes, the reply it delivers
    if that task is suspended on a call, and which child it looks at if
    the task is suspended in [gather]. *)
Record pick := Pick { task_id : nat; reply : result json; child : nat }.

Section Loop.

Variable view : Type.
Variable discover_view : Message.t -> option view.
Variable get_response : view -> Message.t -> result json.
Variable self : TelegramEngine.t.

(** The loop resumes one task up to its next suspension point.  A task in
    [gather] resumes with the exception of a child that raised (the other
    children keep running), or continues once every child has returned. *)
Definition step (p : list task) (c : pick) : option (list event * list task) :=
  let i := task_id c in
  match p !! i with
  | None => None
  | Some (Running (Done _)) => None
  | Some (Running (Do ev k)) => Some ([ev], <[i := Running k]> p)
  | Some (Running (Await rq k)) => Some ([Post rq], <[i := Awaiting k]> p)
  | Some (Running (Gather cs k)) =>
      Some ([], <[i := Joining (seq (length p) (length cs)) k]> p ++ (Running <$> cs))
  | Some (Running (EnsureFuturePolling last_update k)) =>
      Some ([], <[i := Running k]> p
                ++ [Running (TelegramEngine.polling view discover_view get_response
                               self last_update)])
  | Some (Awaiting k) => Some ([], <[i := Running (k (reply c))]> p)
  | Some (Joining children k) =>
      match raised_child p children (child c) with
      | Some e => Some ([], <[i := Running (Done (Raise e))]> p)
      | None =>
          if all_returned p children
          then Some ([], <[i := Running k]> p)
          else None
      end
  end.

(** A run of the loop under a schedule; a pick of a task that cannot move
    is skipped. *)
Fixpoint exec (sched : list pick) (p : list task) : list event * list task :=
  match sched with
  | [] => ([], p)
  | c :: sched =>
      match step p c with
      | None => exec sched p
      | Some (evs, p') => let '(tr, p'') := exec sched p' in (evs ++ tr, p'')
      end
  end.

End Loop.

(** A coroutine awaited directly ([await c]): its effects in order, given
    the replies of the remote to its calls, and how it ends ([None] while
    a call is unanswered).  [gather] and [ensure_future] need the loop. *)
Fixpoint run (c : coro) (replies : list (result json)) : list event * option (result unit) :=
  match c with
  | Done r => ([], Some r)
  | Do ev k => let '(tr, r) := run k replies in (ev :: tr, r)
  | Await rq k =>
      match replies with
      | [] => ([Post rq], None)
      | reply :: replies => let '(tr, r) := run (k reply) replies in (Post rq :: tr, r)
      end
  | Gather _ _ => ([], None)
  | EnsureFuturePolling _ _ => ([], None)
  end.

(** The HTTP calls of a trace. *)
Definition posts (tr : list event) : list request :=
  omap (fun ev => match ev with Post rq => Some rq | _ => None end) tr.

(** * Properties *)

(** ** Python values *)

Lemma truthy_obj_lookup (m : gmap string json) (k : string) (v : json) :
  m !! k = Some v -> Py.truthy (JObj m) = true.
Proof.
  intros Hk. simpl. apply negb_true_iff, bool_decide_eq_false.
  intros ->. by rewrite lookup_empty in Hk.
Qed.

Lemma getitem_lookup (m : gmap string json) (k : string) (v : json) :
  m !! k = Some v -> Py.getitem (JObj m) k = Ok v.
Proof. intros Hk. simpl. by rewrite Hk. Qed.

Lemma split_nonempty (sep : ascii) (s : string) : Py.split sep s ≠ [].
Proof.
  destruct s as [|c s]; simpl; [done|].
  destruct (Ascii.eqb c sep); [done|]. by destruct (Py.split sep s).
Qed.

(** ** The remote API proxy *)

Lemma methods_allowed (attr : string) :
  attr ∈ TelegramAPI.methods ->
  attr = "delete_webhook" ∨ attr = "send_message" ∨
  attr = "set_webhook" ∨ attr = "get_updates".
Proof.
  unfold TelegramAPI.methods. rewrite !elem_of_cons, elem_of_nil. tauto.
Qed.

Lemma getattr_allowed (api : TelegramAPI.t) (attr : string) :
  attr ∈ TelegramAPI.methods ->
  TelegramAPI.__getattr__ api attr = Ok (Request (TelegramAPI.make_url api attr)).
Proof.
  intros Hin. unfold TelegramAPI.__getattr__.
  by rewrite bool_decide_eq_true_2.
Qed.

(** C4. For every operation name of the allow-list the proxy returns a
    callable, and the URL it posts to is the base URL, [/bot], the token,
    [/] and the name in mixed case: first segment lower-cased, the others
    title-cased and appended, that is deleteWebhook, sendMessage,
    setWebhook and getUpdates. *)
Theorem allowed_operation_url (api : TelegramAPI.t) (name : string) :
  name ∈ TelegramAPI.methods ->
  (exists f, TelegramAPI.__getattr__ api name = Ok f ∧
     forall kwargs,
       url (f kwargs) =
         TelegramAPI.api_url +:+ "/bot" +:+ TelegramAPI.token api +:+ "/"
           +:+ mixed_case name ∧
       body (f kwargs) = kwargs) ∧
  (exists first rest,
     Py.split "_" name = first :: rest ∧
     mixed_case name = Py.lower first +:+ Py.join (Py.title <$> rest)) ∧
  (name, mixed_case name) ∈
    [("delete_webhook", "deleteWebhook"); ("send_message", "sendMessage");
     ("set_webhook", "setWebhook"); ("get_updates", "getUpdates")].
Proof.
  intros Hin. split; [|split].
  - eexists. split; [by apply getattr_allowed|]. intros kwargs. by simpl.
  - unfold mixed_case. destruct (Py.split "_" name) as [|w ws] eqn:Hs.
    + by apply split_nonempty in Hs.
    + by exists w, ws.
  - apply methods_allowed in Hin as [-> | [-> | [-> | ->]]];
      rewrite !elem_of_cons; vm_compute; tauto.
Qed.

Lemma allowed_operation_url_witness :
  ("get_updates", mixed_case "get_updates") ∈
    [("delete_webhook", "deleteWebhook"); ("send_message", "sendMessage");
     ("set_webhook", "setWebhook"); ("get_updates", "getUpdates")].
Proof.
  refine (proj2 (proj2 (allowed_operation_url (TelegramAPI.Build "123:abc")
                          "get_updates" _))).
  refine (bool_decide_unpack _ _). vm_compute. exact I.
Defined.

Example make_url_get_updates :
  TelegramAPI.make_url (TelegramAPI.Build "123:abc") "get_updates"
  = "https://api.telegram.org/bot123:abc/getUpdates".
Proof. reflexivity. Qed.

Lemma exec_finished_task (view : Type) (discover_view : Message.t -> option view)
    (get_response : view -> Message.t -> result json) (self : TelegramEngine.t)
    (sched : list pick) (r : result unit) :
  exec view discover_view get_response self sched [Running (Done r)]
  = ([], [Running (Done r)]).
Proof.
  induction sched as [|c sched IH]; [done|].
  simpl. unfold step. destruct (task_id c) as [|i]; simpl; exact IH.
Qed.


(** *** Attribute access on the proxy *)

(** What [self.api.<name>] can yield. *)
Inductive attribute :=
| Operation (f : json -> request)   (* what [__getattr__] returns *)
| Text (s : string)                 (* [token], [api_url] *)
| Session                           (* [session], the HTTP client *)
| Names (l : list string)           (* [methods] *)
| BoundMethod (name : string)       (* [__init__], [make_url], [__getattr__] *)
| Inherited (name : string).        (* an attribute every object has *)

(** The attributes the proxy has without its hook: those [__init__] sets
    on the instance, and those the class body defines. *)
Definition own_attributes : list string :=
  ["token"; "session"; "api_url"; "methods"; "__init__"; "make_url"; "__getattr__"].

Section AttributeAccess.

(** The names every Python object resolves ([__class__], [__dict__],
    ...): given by the language, not by this module. *)
Variable inherited : string -> bool.

(** [self.api.<name>]: the ordinary lookup (instance, then class, then
    [object]) comes first; only a name it does not find reaches the hook
    [__getattr__]. *)
Definition getattr_proxy (self : TelegramAPI.t) (name : string) : result attribute :=
  if String.eqb name "token" then Ok (Text (TelegramAPI.token self))
  else if String.eqb name "session" then Ok Session
  else if String.eqb name "api_url" then Ok (Text TelegramAPI.api_url)
  else if String.eqb name "methods" then Ok (Names TelegramAPI.methods)
  else if bool_decide (name ∈ ["__init__"; "make_url"; "__getattr__"])
  then Ok (BoundMethod name)
  else if inherited name then Ok (Inherited name)
  else f ← TelegramAPI.__getattr__ self name; Ok (Operation f).

Lemma getattr_proxy_hook (self : TelegramAPI.t) (name : string) :
  name ∉ own_attributes -> inherited name = false ->
  getattr_proxy self name
  = (f ← TelegramAPI.__getattr__ self name; Ok (Operation f)).
Proof.
  unfold own_attributes, getattr_proxy. rewrite !not_elem_of_cons.
  intros (Ht & Hs & Ha & Hm & Hi & Hu & Hg & _) ->.
  destruct (String.eqb_spec name "token"); [done|].
  destruct (String.eqb_spec name "session"); [done|].
  destruct (String.eqb_spec name "api_url"); [done|].
  destruct (String.eqb_spec name "methods"); [done|].
  rewrite bool_decide_eq_false_2; [done|].
  rewrite !elem_of_cons, elem_of_nil. tauto.
Qed.

(** The four operations of the engine are reached through the hook. *)
Lemma getattr_proxy_allowed (self : TelegramAPI.t) (name : string) :
  name ∈ TelegramAPI.methods -> inherited name = false ->
  getattr_proxy self name
  = Ok (Operation (Request (TelegramAPI.make_url self name))).
Proof.
  intros Hin Hinh. rewrite getattr_proxy_hook; [by rewrite getattr_allowed| |done].
  unfold own_attributes.
  apply methods_allowed in Hin as [-> | [-> | [-> | ->]]];
    rewrite !not_elem_of_cons; repeat split; try discriminate; apply not_elem_of_nil.
Qed.


End AttributeAccess.



(** ** Translation *)

Section Translation.

Variable self : TelegramEngine.t.

Lemma build_message_no_key (m : gmap string json) :
  m !! "message" = None -> TelegramEngine.build_message self (JObj m) = Ok None.
Proof. intros Hm. unfold TelegramEngine.build_message. simpl. by rewrite Hm. Qed.

(** C10. A [message] key that is present with a false value (null, an
    empty object, ...) is treated like an absent one: the translation
    returns [None] and builds no message. *)
Theorem build_message_falsy_message (m : gmap string json) (v : json) :
  m !! "message" = Some v ->
  Py.truthy v = false ->
  TelegramEngine.build_message self (JObj m) = Ok None.
Proof.
  intros Hm Hv. unfold TelegramEngine.build_message. simpl.
  rewrite Hm. simpl. by rewrite Hv.
Qed.

(** C3 (as amended). An update without a [message] key translates to
    [None].  An update whose [message] is an object with [message_id],
    [text], [date] and a [from] object that has [id] and [first_name]
    translates to the message with exactly these fields, the optional
    user fields read with [None] as default, the platform tag
    [telegram] and the whole update as raw payload. *)
Theorem build_message_fields (m : gmap string json) :
  (m !! "message" = None ->
   TelegramEngine.build_message self (JObj m) = Ok None) ∧
  (forall (md fm : gmap string json) (message_id text date id first_name : json),
     m !! "message" = Some (JObj md) ->
     md !! "message_id" = Some message_id ->
     md !! "text" = Some text ->
     md !! "date" = Some date ->
     md !! "from" = Some (JObj fm) ->
     fm !! "id" = Some id ->
     fm !! "first_name" = Some first_name ->
     TelegramEngine.build_message self (JObj m)
     = Ok (Some {| Message.id := message_id;
                   Message.platform := "telegram";
                   Message.text := text;
                   Message.user :=
                     {| TelegramUser.id := id;
                        TelegramUser.first_name := first_name;
                        TelegramUser.last_name := default JNull (fm !! "last_name");
                        TelegramUser.username := default JNull (fm !! "username");
                        TelegramUser.language := default JNull (fm !! "language_code") |};
                   Message.timestamp := date;
                   Message.raw := JObj m |})).
Proof.
  split; [apply build_message_no_key|].
  intros md fm message_id text date id first_name Hm Hid Htext Hdate Hfrom Hu Hfn.
  unfold TelegramEngine.build_message. simpl Py.get. rewrite Hm. simpl default.
  cbn [mbind result_bind]. rewrite (truthy_obj_lookup md _ _ Hid). simpl negb. cbv iota.
  rewrite (getitem_lookup md _ _ Hid), (getitem_lookup md _ _ Htext),
    (getitem_lookup md _ _ Hfrom), (getitem_lookup md _ _ Hdate).
  cbn [mbind result_bind]. unfold TelegramUser.__init__.
  rewrite (getitem_lookup fm _ _ Hu), (getitem_lookup fm _ _ Hfn).
  reflexivity.
Qed.

End Translation.

(** ** Sample payloads *)

Module Sample.

Definition engine : TelegramEngine.t :=
  TelegramEngine.__init__ "123:abc" "telegram" None.

Definition sender : gmap string json :=
  <["id" := JNum 42]> (<["first_name" := JStr "A"]> ∅).

(** [{message_id: 5, text: "hi", date: 1000, from: frm}]. *)
Definition message_from (frm : json) : gmap string json :=
  <["message_id" := JNum 5]> (<["text" := JStr "hi"]>
  (<["date" := JNum 1000]> (<["from" := frm]> ∅))).

Definition message : gmap string json := message_from (JObj sender).

(** [{update_id: i, message: {...}}]. *)
Definition update (i : Z) : gmap string json :=
  <["update_id" := JNum i]> (<["message" := JObj message]> ∅).

(** [{update_id: 7, edited_message: {}}]: an update of another kind. *)
Definition edited : gmap string json :=
  <["update_id" := JNum 7]> (<["edited_message" := JObj ∅]> ∅).

(** [{ok: true, result: [...]}]. *)
Definition updates (l : list json) : json :=
  JObj (<["ok" := JBool true]> (<["result" := JArr l]> ∅)).

Definition user : TelegramUser.t :=
  TelegramUser.Build (JNum 42) (JStr "A") JNull JNull JNull.

End Sample.

Lemma build_message_falsy_message_witness :
  TelegramEngine.build_message Sample.engine (JObj {["message" := JObj ∅]}) = Ok None.
Proof.
  apply (build_message_falsy_message Sample.engine _ (JObj ∅)).
  - vm_compute. reflexivity.
  - vm_compute. reflexivity.
Defined.

Lemma build_message_fields_witness :
  TelegramEngine.build_message Sample.engine (JObj {["message" := JObj Sample.message]})
  = Ok (Some {| Message.id := JNum 5;
                Message.platform := "telegram";
                Message.text := JStr "hi";
                Message.user := Sample.user;
                Message.timestamp := JNum 1000;
                Message.raw := JObj {["message" := JObj Sample.message]} |}).
Proof.
  apply (proj2 (build_message_fields Sample.engine {["message" := JObj Sample.message]})
           Sample.message Sample.sender (JNum 5) (JStr "hi") (JNum 1000) (JNum 42) (JStr "A"));
    vm_compute; reflexivity.
Defined.

(** C3 (as stated) fails: an update whose [message] has [message_id],
    [text], [date] and [from], with a [from] that lacks [id], yields no
    message but a [KeyError]. *)
Lemma build_message_from_without_id :
  let md := Sample.message_from (JObj ∅) in
  (is_Some (md !! "message_id") ∧ is_Some (md !! "text") ∧
   is_Some (md !! "date") ∧ is_Some (md !! "from")) ∧
  TelegramEngine.build_message Sample.engine (JObj {["message" := JObj md]})
  = Raise (KeyError "id").
Proof.
  split; [|vm_compute; reflexivity].
  repeat split; vm_compute; eauto.
Qed.

(** ** The dispatch pipeline *)

(** C2 (the code departs from it). For the update
    [{update_id: 7, edited_message: {}}],
    which has no message, [message_handler] is no silent no-op: it ends
    with [AttributeError], before any log record and any call. *)
Theorem message_handler_edited_message (view : Type)
    (discover_view : Message.t -> option view)
    (get_response : view -> Message.t -> result json) (self : TelegramEngine.t) :
  TelegramEngine.build_message self (JObj Sample.edited) = Ok None ∧
  TelegramEngine.message_handler view discover_view get_response self (JObj Sample.edited)
  = Done (Raise AttributeError) ∧
  forall replies,
    run (TelegramEngine.message_handler view discover_view get_response self
           (JObj Sample.edited)) replies
    = ([], Some (Raise AttributeError)).
Proof.
  assert (Hb : TelegramEngine.build_message self (JObj Sample.edited) = Ok None).
  { apply build_message_no_key. vm_compute. reflexivity. }
  assert (Hh : TelegramEngine.message_handler view discover_view get_response self
                 (JObj Sample.edited) = Done (Raise AttributeError)).
  { unfold TelegramEngine.message_handler. by rewrite Hb. }
  rewrite Hh. done.
Qed.

(** The same for every update without a message. *)
Lemma message_handler_no_message (view : Type)
    (discover_view : Message.t -> option view)
    (get_response : view -> Message.t -> result json) (self : TelegramEngine.t)
    (data : json) :
  TelegramEngine.build_message self data = Ok None ->
  TelegramEngine.message_handler view discover_view get_response self data
  = Done (Raise AttributeError).
Proof. intros Hb. unfold TelegramEngine.message_handler. by rewrite Hb. Qed.

(** ** Mode selection and webhook registration *)

Section Configuration.

Variable settings : string -> result json.
Variable self : TelegramEngine.t.

(** The call [set_webhook(url=hostname)]. *)
Definition set_webhook_request (hostname : json) : request :=
  Request (TelegramAPI.make_url (TelegramEngine.api self) "set_webhook")
          (JObj {["url" := hostname]}).

(** How [configure_webhook] starts, for every outcome of the read of
    [HOSTNAME]: a false value (None, the empty string) ends the
    configuration with [ImproperlyConfigured] before any effect; a
    failing read ends it with its own exception, also before any effect;
    only for a true hostname the first effect is the call
    [set_webhook(url=hostname)]. *)
Theorem configure_webhook_hostname :
  match settings "HOSTNAME" with
  | Ok hostname =>
      if Py.truthy hostname
      then exists k, TelegramEngine.configure_webhook settings self
                     = Await (set_webhook_request hostname) k
      else TelegramEngine.configure_webhook settings self
           = Done (Raise (ImproperlyConfigured "Missing HOSTNAME setting")) ∧
           forall replies,
             run (TelegramEngine.configure_webhook settings self) replies
             = ([], Some (Raise (ImproperlyConfigured "Missing HOSTNAME setting")))
  | Raise e =>
      TelegramEngine.configure_webhook settings self = Done (Raise e)
  end.
Proof.
  unfold TelegramEngine.configure_webhook.
  destruct (settings "HOSTNAME") as [hostname|e]; simpl; [|done].
  destruct (Py.truthy hostname); simpl; [|done].
  unfold call. rewrite getattr_allowed; [by eexists|].
  unfold TelegramAPI.methods. rewrite !elem_of_cons. tauto.
Qed.

(** C9. With a true hostname, every run of [configure_webhook] makes
    exactly one remote call, [set_webhook(url=hostname)], whatever the
    remote replies: a second run repeats the call of the first, and
    nothing of the first run enters it. *)
Theorem configure_webhook_same_call (hostname : json) :
  settings "HOSTNAME" = Ok hostname ->
  Py.truthy hostname = true ->
  forall replies1 replies2,
    posts (run (TelegramEngine.configure_webhook settings self) replies1).1
    = [set_webhook_request hostname] ∧
    posts (run (TelegramEngine.configure_webhook settings self) replies2).1
    = posts (run (TelegramEngine.configure_webhook settings self) replies1).1.
Proof.
  intros Hs Ht.
  assert (Hone : forall replies,
    posts (run (TelegramEngine.configure_webhook settings self) replies).1
    = [set_webhook_request hostname]).
  { intros replies. unfold TelegramEngine.configure_webhook.
    rewrite Hs. simpl ok_then. rewrite Ht. simpl negb. cbv iota.
    unfold call. rewrite getattr_allowed
      by (unfold TelegramAPI.methods; rewrite !elem_of_cons; tauto).
    simpl ok_then. destruct replies as [|[response|e] replies]; [done| |done].
    simpl. destruct (Py.getitem response "ok") as [ok|e]; [|done].
    simpl. by destruct (Py.truthy ok). }
  intros replies1 replies2. by rewrite !Hone.
Qed.

(** C7. [configure] runs [configure_polling] for the mode [polling],
    [configure_webhook] for the mode [webhook], and for every other mode
    ends with [ImproperlyConfigured] without running anything; an engine
    built without a mode has the mode [polling]. *)
Theorem configure_selects_mode :
  TelegramEngine.configure settings self =
    (if decide (TelegramEngine.mode self = "polling")
     then TelegramEngine.configure_polling self
     else if decide (TelegramEngine.mode self = "webhook")
     then TelegramEngine.configure_webhook settings self
     else Done (Raise (ImproperlyConfigured
                         ("There's no method to configure "
                            +:+ TelegramEngine.mode self +:+ " mode")))) ∧
  (forall replies,
     TelegramEngine.mode self ≠ "polling" ->
     TelegramEngine.mode self ≠ "webhook" ->
     (run (TelegramEngine.configure settings self) replies).1 = []) ∧
  (forall token engine_name,
     TelegramEngine.mode (TelegramEngine.__init__ token engine_name None) = "polling") ∧
  (forall token engine_name m,
     TelegramEngine.mode (TelegramEngine.__init__ token engine_name (Some m)) = m).
Proof.
  assert (Hcfg : TelegramEngine.configure settings self =
    (if decide (TelegramEngine.mode self = "polling")
     then TelegramEngine.configure_polling self
     else if decide (TelegramEngine.mode self = "webhook")
     then TelegramEngine.configure_webhook settings self
     else Done (Raise (ImproperlyConfigured
                         ("There's no method to configure "
                            +:+ TelegramEngine.mode self +:+ " mode"))))).
  { unfold TelegramEngine.configure, TelegramEngine.getattr_configure.
    destruct (decide (TelegramEngine.mode self = "polling")) as [->|Hp]; [done|].
    destruct (String.eqb_spec ("configure_" +:+ TelegramEngine.mode self)
                              "configure_polling") as [Heq|_].
    { exfalso. apply Hp.
      change "configure_polling" with ("configure_" +:+ "polling") in Heq.
      by apply (inj (String.app "configure_")) in Heq. }
    destruct (decide (TelegramEngine.mode self = "webhook")) as [->|Hw]; [done|].
    destruct (String.eqb_spec ("configure_" +:+ TelegramEngine.mode self)
                              "configure_webhook") as [Heq|_]; [|done].
    exfalso. apply Hw.
    change "configure_webhook" with ("configure_" +:+ "webhook") in Heq.
    by apply (inj (String.app "configure_")) in Heq. }
  split; [exact Hcfg|]. split; [|done].
  intros replies Hp Hw. rewrite Hcfg.
  destruct (decide (TelegramEngine.mode self = "polling")); [done|].
  by destruct (decide (TelegramEngine.mode self = "webhook")).
Qed.

End Configuration.

(** [getattr(settings, name)] for a settings object that holds the
    attributes [attrs] and nothing else: the read of a name it does not
    hold raises [AttributeError]. *)
Definition plain_settings (attrs : gmap string json) (name : string) : result json :=
  match attrs !! name with
  | Some v => Ok v
  | None => Raise AttributeError
  end.

(** C6 (the code departs from it). With settings that define no
    [HOSTNAME] at all, [configure_webhook] makes no call, but it ends
    with the [AttributeError] of the read and not with
    [ImproperlyConfigured]; the configuration error is raised only for a
    [HOSTNAME] that is defined and false, as [None] is. *)
Theorem configure_webhook_without_hostname (self : TelegramEngine.t) :
  (TelegramEngine.configure_webhook (plain_settings {["TOKEN" := JStr "123:abc"]}) self
   = Done (Raise AttributeError) ∧
   forall replies,
     run (TelegramEngine.configure_webhook
            (plain_settings {["TOKEN" := JStr "123:abc"]}) self) replies
     = ([], Some (Raise AttributeError))) ∧
  TelegramEngine.configure_webhook
    (plain_settings (<["HOSTNAME" := JNull]> {["TOKEN" := JStr "123:abc"]})) self
  = Done (Raise (ImproperlyConfigured "Missing HOSTNAME setting")).
Proof.
  assert (Hno : plain_settings {["TOKEN" := JStr "123:abc"]} "HOSTNAME"
                = Raise AttributeError) by (vm_compute; reflexivity).
  assert (Hnull : plain_settings (<["HOSTNAME" := JNull]> {["TOKEN" := JStr "123:abc"]})
                    "HOSTNAME" = Ok JNull) by (vm_compute; reflexivity).
  unfold TelegramEngine.configure_webhook. rewrite Hno, Hnull. simpl. done.
Qed.

(** ** The polling loop *)

Section Polling.

Variable view : Type.
Variable discover_view : Message.t -> option view.
Variable get_response : view -> Message.t -> result json.
Variable self : TelegramEngine.t.

Local Abbreviation api := (TelegramEngine.api self).
Local Abbreviation message_handler :=
  (TelegramEngine.message_handler view discover_view get_response self).
Local Abbreviation polling :=
  (TelegramEngine.polling view discover_view get_response self).
Local Abbreviation loop_step := (step view discover_view get_response self).
Local Abbreviation loop_exec := (exec view discover_view get_response self).

(** The URL of [get_updates]. *)
Definition get_updates_url : string := TelegramAPI.make_url api "get_updates".

Lemma send_message_url_not_get_updates :
  TelegramAPI.make_url api "send_message" ≠ get_updates_url.
Proof.
  unfold get_updates_url, TelegramAPI.make_url. intros Heq.
  do 4 apply (inj (String.app _)) in Heq. discriminate Heq.
Qed.

(** An event that is no [get_updates] call. *)
Definition no_poll (ev : event) : Prop :=
  match ev with
  | Post rq => url rq ≠ get_updates_url
  | _ => True
  end.

(** A coroutine that never polls, gathers or schedules: a handler. *)
Inductive quiet : coro -> Prop :=
| quiet_done r : quiet (Done r)
| quiet_do ev k : no_poll ev -> quiet k -> quiet (Do ev k)
| quiet_await rq k :
    url rq ≠ get_updates_url -> (forall r, quiet (k r)) -> quiet (Await rq k).

(** A coroutine that gathers handlers only, and whose last act, if it
    schedules the next iteration, is to schedule it: an iteration of the
    polling loop. *)
Inductive solo : coro -> Prop :=
| solo_done r : solo (Done r)
| solo_do ev k : solo k -> solo (Do ev k)
| solo_await rq k : (forall r, solo (k r)) -> solo (Await rq k)
| solo_gather cs k : Forall quiet cs -> solo k -> solo (Gather cs k)
| solo_ensure_future last_update r : solo (EnsureFuturePolling last_update (Done r)).

Definition quiet_task (t : task) : Prop :=
  match t with
  | Running c => quiet c
  | Awaiting k => forall r, quiet (k r)
  | Joining _ _ => False
  end.

Definition solo_task (t : task) : Prop :=
  match t with
  | Running c => solo c
  | Awaiting k => forall r, solo (k r)
  | Joining _ _ => False
  end.

Lemma message_handler_quiet (data : json) : quiet (message_handler data).
Proof.
  unfold TelegramEngine.message_handler.
  destruct (TelegramEngine.build_message self data) as [[m|]|e]; simpl;
    try constructor.
  { exact I. }
  destruct (discover_view m) as [v|]; [|constructor].
  destruct (get_response v m) as [response|e]; simpl; [|constructor].
  unfold call. rewrite getattr_allowed
    by (unfold TelegramAPI.methods; rewrite !elem_of_cons; tauto).
  simpl. constructor.
  - apply send_message_url_not_get_updates.
  - intros [r|e]; simpl; constructor.
Qed.

Lemma polling_solo (last_update : json) : solo (polling last_update).
Proof.
  unfold TelegramEngine.polling.
  destruct (TelegramEngine.polling_payload last_update) as [payload|e]; simpl;
    [|constructor].
  unfold call. rewrite getattr_allowed
    by (unfold TelegramAPI.methods; rewrite !elem_of_cons; tauto).
  simpl. constructor. intros [updates|e]; simpl; [|constructor].
  destruct (TelegramEngine.polling_cursor last_update updates) as [cursor|e];
    simpl; [|constructor].
  destruct (Py.getitem updates "result" ≫= Py.iter) as [msgs|e]; simpl;
    [|constructor].
  constructor; [|constructor].
  apply Forall_fmap, Forall_forall. intros data _. apply message_handler_quiet.
Qed.

(** The state of the loop: either no task will ever poll again ([Idle]),
    or one task is in an iteration and every other task is finished
    ([Iterating]), or one task waits in [gather] for its handlers and
    every task that is not one of them is finished ([Gathering]). *)
Inductive loop_inv (p : list task) : Prop :=
| Idle :
    (forall j t, p !! j = Some t -> quiet_task t) -> loop_inv p
| Iterating i t :
    p !! i = Some t -> solo_task t ->
    (forall j t', j ≠ i -> p !! j = Some t' -> finished t' = true) ->
    loop_inv p
| Gathering i children k :
    p !! i = Some (Joining children k) -> solo k ->
    (forall j t', j ≠ i -> p !! j = Some t' ->
                  finished t' = true ∨ (j ∈ children ∧ quiet_task t')) ->
    loop_inv p.

Lemma finished_quiet (t : task) : finished t = true -> quiet_task t.
Proof. destruct t as [[]| |]; simpl; try done. constructor. Qed.

Lemma step_finished (p : list task) (c : pick) (t : task) :
  p !! task_id c = Some t -> finished t = true -> loop_step p c = None.
Proof.
  intros Ht Hf. unfold step. rewrite Ht.
  by destruct t as [[]| |].
Qed.

(** A handler moves to a handler, and posts no [get_updates]. *)
Lemma step_quiet (p p' : list task) (c : pick) (t : task) (evs : list event) :
  p !! task_id c = Some t -> quiet_task t -> loop_step p c = Some (evs, p') ->
  (exists t', p' = <[task_id c := t']> p ∧ quiet_task t') ∧ Forall no_poll evs.
Proof.
  intros Ht Hq. unfold step. rewrite Ht.
  destruct t as [c0|k|? ?]; simpl in Hq; [|intros [= <- <-]|done].
  - destruct Hq as [r|ev k Hev Hk|rq k Hrq Hk]; [done|intros [= <- <-]..].
    + split; [by exists (Running k)|]. by repeat constructor.
    + split; [by exists (Awaiting k)|]. by repeat constructor.
  - split; [|constructor]. exists (Running (k (reply c))). split; [done|]. apply Hq.
Qed.

Lemma step_inv (p p' : list task) (c : pick) (evs : list event) :
  loop_inv p -> loop_step p c = Some (evs, p') -> loop_inv p'.
Proof.
  intros [Hq | i t Hi Hs Hfin | i children k Hi Hk Hrest] Hstep.
  - (* nobody polls *)
    destruct (p !! task_id c) as [t|] eqn:Ht;
      [|by unfold step in Hstep; rewrite Ht in Hstep].
    destruct (step_quiet _ _ _ _ _ Ht (Hq _ _ Ht) Hstep) as [(t' & -> & Hq') _].
    apply Idle. intros j tj Hj.
    destruct (decide (j = task_id c)) as [->|Hne].
    + rewrite list_lookup_insert_eq in Hj by (by eapply lookup_lt_Some).
      by injection Hj as <-.
    + rewrite list_lookup_insert_ne in Hj by done. by eapply Hq.
  - (* one task iterates *)
    destruct (decide (task_id c = i)) as [Hc|Hne]; cycle 1.
    { destruct (p !! task_id c) as [t'|] eqn:Ht;
        [|by unfold step in Hstep; rewrite Ht in Hstep].
      by rewrite (step_finished _ _ _ Ht (Hfin _ _ Hne Ht)) in Hstep. }
    assert (Hlt : (i < length p)%nat) by (by eapply lookup_lt_Some).
    unfold step in Hstep. rewrite Hc, Hi in Hstep.
    destruct t as [c0|k|? ?]; simpl in Hs; [| |done].
    + destruct Hs as [r|ev k Hk|rq k Hk|cs k Hcs Hk|last_update r];
        [done|injection Hstep as <- <-..].
      * apply (Iterating _ i (Running k)); [by rewrite list_lookup_insert_eq|done|].
        intros j t' Hj. rewrite list_lookup_insert_ne by done. by apply Hfin.
      * apply (Iterating _ i (Awaiting k)); [by rewrite list_lookup_insert_eq|done|].
        intros j t' Hj. rewrite list_lookup_insert_ne by done. by apply Hfin.
      * apply (Gathering _ i (seq (length p) (length cs)) k); [|done|].
        { rewrite lookup_app_l by (by rewrite length_insert).
          by rewrite list_lookup_insert_eq. }
        intros j t' Hj Hlook.
        destruct (decide (j < length p)%nat) as [Hjl|Hjl].
        { left. rewrite lookup_app_l in Hlook by (by rewrite length_insert).
          rewrite list_lookup_insert_ne in Hlook by done. by eapply Hfin. }
        right. rewrite lookup_app_r in Hlook by (rewrite length_insert; lia).
        rewrite length_insert, list_lookup_fmap in Hlook.
        destruct (cs !! (j - length p)%nat) as [cj|] eqn:Hcj; [|done].
        injection Hlook as <-. split.
        { apply elem_of_seq. apply lookup_lt_Some in Hcj. lia. }
        simpl. rewrite Forall_forall in Hcs. apply Hcs.
        by eapply list_elem_of_lookup_2.
      * apply (Iterating _ (length p) (Running (polling last_update))).
        { rewrite lookup_app_r by (by rewrite length_insert).
          by rewrite length_insert, Nat.sub_diag. }
        { apply polling_solo. }
        intros j t' Hj Hlook.
        destruct (decide (j < length p)%nat) as [Hjl|Hjl].
        { rewrite lookup_app_l in Hlook by (by rewrite length_insert).
          destruct (decide (j = i)) as [->|Hji].
          - rewrite list_lookup_insert_eq in Hlook by done. by injection Hlook as <-.
          - rewrite list_lookup_insert_ne in Hlook by done. by eapply Hfin. }
        apply lookup_lt_Some in Hlook.
        rewrite length_app, length_insert in Hlook. simpl in Hlook. lia.
    + injection Hstep as <- <-.
      apply (Iterating _ i (Running (k (reply c))));
        [by rewrite list_lookup_insert_eq|apply Hs|].
      intros j t' Hj. rewrite list_lookup_insert_ne by done. by apply Hfin.
  - (* one task gathers *)
    assert (Hlt : (i < length p)%nat) by (by eapply lookup_lt_Some).
    destruct (decide (task_id c = i)) as [Hc|Hne].
    + unfold step in Hstep. rewrite Hc, Hi in Hstep.
      destruct (raised_child p children (child c)) as [e|].
      * injection Hstep as <- <-. apply Idle. intros j t' Hlook.
        destruct (decide (j = i)) as [->|Hji].
        { rewrite list_lookup_insert_eq in Hlook by done. injection Hlook as <-.
          constructor. }
        rewrite list_lookup_insert_ne in Hlook by done.
        destruct (Hrest _ _ Hji Hlook) as [Hf|[_ Hq]]; [by apply finished_quiet|done].
      * destruct (all_returned p children) eqn:Hall; [|done].
        injection Hstep as <- <-.
        apply (Iterating _ i (Running k)); [by rewrite list_lookup_insert_eq|done|].
        intros j t' Hji. rewrite list_lookup_insert_ne by done. intros Hlook.
        destruct (Hrest _ _ Hji Hlook) as [Hf|[Hin _]]; [done|].
        unfold all_returned in Hall. rewrite forallb_forall in Hall.
        apply list_elem_of_In, Hall in Hin. rewrite Hlook in Hin.
        by destruct t' as [[[]| | | |]| |].
    + destruct (p !! task_id c) as [t'|] eqn:Ht;
        [|by unfold step in Hstep; rewrite Ht in Hstep].
      destruct (Hrest _ _ Hne Ht) as [Hf|[Hin Hq]].
      { by rewrite (step_finished _ _ _ Ht Hf) in Hstep. }
      destruct (step_quiet _ _ _ _ _ Ht Hq Hstep) as [(t'' & -> & Hq') _].
      apply (Gathering _ i children k); [by rewrite list_lookup_insert_ne|done|].
      intros j tj Hji Hlook.
      destruct (decide (j = task_id c)) as [->|Hjc].
      * rewrite list_lookup_insert_eq in Hlook by (by eapply lookup_lt_Some).
        injection Hlook as <-. by right.
      * rewrite list_lookup_insert_ne in Hlook by done. by eapply Hrest.
Qed.

Lemma exec_inv (sched : list pick) (p : list task) :
  loop_inv p -> loop_inv (loop_exec sched p).2.
Proof.
  revert p. induction sched as [|c sched IH]; intros p Hp; [done|].
  simpl. destruct (loop_step p c) as [[evs p']|] eqn:Hstep; [|by apply IH].
  specialize (IH p' (step_inv _ _ _ _ Hp Hstep)).
  by destruct (loop_exec sched p').
Qed.

Lemma polling_inv (last_update : json) : loop_inv [Running (polling last_update)].
Proof.
  apply (Iterating _ 0%nat (Running (polling last_update))); [done|apply polling_solo|].
  intros [|j] t' Hj Hlook; [done|]. by destruct j.
Qed.

(** C8. In every run of the polling loop, at the moment a task posts a
    [get_updates] call, and at the moment a task schedules the next
    iteration, every other task of the loop is finished: all handlers of
    the batch (and of the batches before) have completed, with all their
    [send_message] calls answered. *)
Theorem handlers_finish_before_next_poll (last_update : json)
    (sched : list pick) (c : pick) (evs : list event) (p' : list task) :
  let p := (loop_exec sched [Running (polling last_update)]).2 in
  loop_step p c = Some (evs, p') ->
  (exists rq, Post rq ∈ evs ∧ url rq = get_updates_url) ∨
  (exists cursor k, p !! task_id c = Some (Running (EnsureFuturePolling cursor k))) ->
  forall j t, j ≠ task_id c -> p !! j = Some t -> finished t = true.
Proof.
  intros p Hstep Hwhat.
  assert (Hquiet : forall t, p !! task_id c = Some t -> quiet_task t -> False).
  { intros t Ht Hq. destruct Hwhat as [(rq & Hin & Hurl)|(cursor & k & Hc)].
    - destruct (step_quiet _ _ _ _ _ Ht Hq Hstep) as [_ Hevs].
      rewrite Forall_forall in Hevs. by apply (Hevs _ Hin).
    - rewrite Hc in Ht. injection Ht as <-. inversion Hq. }
  destruct (p !! task_id c) as [tc|] eqn:Htc;
    [|by unfold step in Hstep; rewrite Htc in Hstep].
  pose proof (exec_inv sched _ (polling_inv last_update)) as Hinv.
  change (loop_inv p) in Hinv.
  destruct Hinv as [Hq | i t Hi Hs Hfin | i children k Hi Hk Hrest].
  - exfalso. eauto.
  - destruct (decide (task_id c = i)) as [->|Hne]; [done|].
    by rewrite (step_finished _ _ _ Htc (Hfin _ _ Hne Htc)) in Hstep.
  - exfalso. destruct (decide (task_id c = i)) as [Hc|Hne].
    + rewrite Hc, Hi in Htc. injection Htc as <-.
      destruct Hwhat as [(rq & Hin & _)|(cursor & k' & Hrun)]; [|done].
      unfold step in Hstep. rewrite Hc, Hi in Hstep.
      destruct (raised_child p children (child c));
        [|destruct (all_returned p children); [|done]];
        injection Hstep as <- <-; by apply elem_of_nil in Hin.
    + destruct (Hrest _ _ Hne Htc) as [Hf|[_ Hq]]; [|eauto].
      by rewrite (step_finished _ _ _ Htc Hf) in Hstep.
Qed.

(** *** The cursor *)

Lemma polling_payload_first : TelegramEngine.polling_payload JNull = Ok (JObj ∅).
Proof. reflexivity. Qed.

Lemma polling_payload_nonzero (i : Z) :
  i ≠ 0 ->
  TelegramEngine.polling_payload (JNum i) = Ok (JObj {["offset" := JNum (i + 1)]}).
Proof.
  intros Hi. unfold TelegramEngine.polling_payload. simpl.
  by rewrite (proj2 (Z.eqb_neq i 0) Hi).
Qed.

Lemma polling_payload_zero : TelegramEngine.polling_payload (JNum 0) = Ok (JObj ∅).
Proof. reflexivity. Qed.

Lemma polling_cursor_empty (last_update : json) (m : gmap string json) :
  m !! "result" = Some (JArr []) ->
  TelegramEngine.polling_cursor last_update (JObj m) = Ok last_update.
Proof. intros Hm. unfold TelegramEngine.polling_cursor. simpl. by rewrite Hm. Qed.

Lemma polling_cursor_last (last_update : json) (m mu : gmap string json)
    (us : list json) (i : json) :
  m !! "result" = Some (JArr (us ++ [JObj mu])) ->
  mu !! "update_id" = Some i ->
  TelegramEngine.polling_cursor last_update (JObj m) = Ok i.
Proof.
  intros Hm Hmu. unfold TelegramEngine.polling_cursor. simpl. rewrite Hm. simpl.
  rewrite length_app, Nat.add_comm. simpl. rewrite last_snoc. simpl. by rewrite Hmu.
Qed.

(** One iteration: the call carries the payload of the cursor, and after
    a reply the handlers of its updates are gathered and the next
    iteration is scheduled with the new cursor. *)
Lemma polling_iteration (last_update payload : json) :
  TelegramEngine.polling_payload last_update = Ok payload ->
  exists k,
    polling last_update = Await (Request get_updates_url payload) k ∧
    forall (m : gmap string json) (us : list json) (cursor : json),
      m !! "result" = Some (JArr us) ->
      TelegramEngine.polling_cursor last_update (JObj m) = Ok cursor ->
      k (Ok (JObj m))
      = Gather (message_handler <$> us) (EnsureFuturePolling cursor (Done (Ok tt))).
Proof.
  intros Hp. unfold TelegramEngine.polling. rewrite Hp. simpl ok_then.
  unfold call. rewrite getattr_allowed
    by (unfold TelegramAPI.methods; rewrite !elem_of_cons; tauto).
  simpl ok_then. eexists. split; [reflexivity|].
  intros m us cursor Hm Hc. cbv beta. simpl ok_then. rewrite Hc. simpl.
  by rewrite Hm.
Qed.

End Polling.

(** ** Sample runs of the polling loop *)

Module SampleRun.

(** A resolver that matches nothing, and one that answers everything. *)
Definition no_view : Message.t -> option unit := fun _ => None.
Definition any_view : Message.t -> option unit := fun _ => Some tt.
Definition hello : unit -> Message.t -> result json := fun _ _ => Ok (JStr "hello").

Definition get_updates (payload : json) : request :=
  Request "https://api.telegram.org/bot123:abc/getUpdates" payload.

Definition send_hello : request :=
  Request "https://api.telegram.org/bot123:abc/sendMessage"
    (JObj (<["chat_id" := JNum 42]> (<["text" := JStr "hello"]>
          (<["parser_mode" := JStr "markdown"]> ∅)))).

(** Resume task [i]; deliver [r] to task [i]. *)
Definition resume (i : nat) : pick := Pick i (Ok JNull) 0.
Definition deliver (i : nat) (r : json) : pick := Pick i (Ok r) 0.

(** The first call is answered with one update, whose handler finds no
    view; the gather completes and the next iteration starts. *)
Definition one_update (i : Z) : list pick :=
  [resume 0; deliver 0 (Sample.updates [JObj (Sample.update i)]); resume 0;
   resume 1; resume 0; resume 0; resume 2]%nat.

(** The first call is answered with two updates; both handlers answer,
    the second one first. *)
Definition two_updates : list pick :=
  [resume 0;
   deliver 0 (Sample.updates [JObj (Sample.update 7); JObj (Sample.update 8)]);
   resume 0; resume 1; resume 2; resume 2; resume 1;
   deliver 1 JNull; deliver 2 JNull; resume 0; resume 0]%nat.

(** The first call is answered with an update of another kind. *)
Definition edited_update : list pick :=
  [resume 0; deliver 0 (Sample.updates [JObj Sample.edited]); resume 0;
   resume 1; resume 0; resume 0; resume 2]%nat.

End SampleRun.

Example polling_two_updates_posts :
  posts (exec unit SampleRun.any_view SampleRun.hello Sample.engine
           (SampleRun.two_updates ++ [SampleRun.resume 3])
           [Running (TelegramEngine.polling unit SampleRun.any_view SampleRun.hello
                       Sample.engine JNull)]).1
  = [SampleRun.get_updates (JObj ∅); SampleRun.send_hello; SampleRun.send_hello;
     SampleRun.get_updates (JObj {["offset" := JNum 9]})].
Proof. vm_compute. reflexivity. Qed.

Example polling_update_seven_posts :
  posts (exec unit SampleRun.no_view SampleRun.hello Sample.engine
           (SampleRun.one_update 7)
           [Running (TelegramEngine.polling unit SampleRun.no_view SampleRun.hello
                       Sample.engine JNull)]).1
  = [SampleRun.get_updates (JObj ∅);
     SampleRun.get_updates (JObj {["offset" := JNum 8]})].
Proof. vm_compute. reflexivity. Qed.

(** An update without a message ends the loop: its handler raises, the
    gather passes the exception on, and no further call is made. *)
Example polling_edited_update_stops :
  let '(tr, p) :=
    exec unit SampleRun.no_view SampleRun.hello Sample.engine SampleRun.edited_update
      [Running (TelegramEngine.polling unit SampleRun.no_view SampleRun.hello
                  Sample.engine JNull)] in
  posts tr = [SampleRun.get_updates (JObj ∅)] ∧
  raised <$> p = [Some AttributeError; Some AttributeError].
Proof. vm_compute. done. Qed.

(** C1 (the code departs from it). The first call carries no offset; it
    is answered with a single update, of identifier 0, which is handled
    without error.  The second call should carry the offset 1, and
    carries none. *)
Theorem polling_offset_after_update_zero
    (get_response : unit -> Message.t -> result json) :
  posts (exec unit SampleRun.no_view get_response Sample.engine
           (SampleRun.one_update 0)
           [Running (TelegramEngine.polling unit SampleRun.no_view get_response
                       Sample.engine JNull)]).1
  = [SampleRun.get_updates (JObj ∅); SampleRun.get_updates (JObj ∅)].
Proof. vm_compute. reflexivity. Qed.

(** After [two_updates], task 3 is the next iteration and posts its
    [get_updates]; the handler that is task 1 is finished by then. *)
Lemma handlers_finish_before_next_poll_witness :
  (exec unit SampleRun.any_view SampleRun.hello Sample.engine SampleRun.two_updates
     [Running (TelegramEngine.polling unit SampleRun.any_view SampleRun.hello
                 Sample.engine JNull)]).2 !! 1%nat
  = Some (Running (Done (Ok tt))) ∧
  finished (Running (Done (Ok tt))) = true.
Proof.
  split; [vm_compute; reflexivity|].
  refine (handlers_finish_before_next_poll unit SampleRun.any_view SampleRun.hello
           Sample.engine JNull SampleRun.two_updates (SampleRun.resume 3)
           [Post (SampleRun.get_updates (JObj {["offset" := JNum 9]}))]
           (snd (default ([], [])
              (step unit SampleRun.any_view SampleRun.hello Sample.engine
                 (exec unit SampleRun.any_view SampleRun.hello Sample.engine
                    SampleRun.two_updates
                    [Running (TelegramEngine.polling unit SampleRun.any_view
                                SampleRun.hello Sample.engine JNull)]).2
                 (SampleRun.resume 3))))
           _ _ 1%nat _ _ _).
  - vm_compute. reflexivity.
  - left. eexists. split; [apply list_elem_of_here|]. vm_compute. reflexivity.
  - simpl. lia.
  - vm_compute. reflexivity.
Defined.

Lemma configure_webhook_same_call_witness :
  let settings := fun _ : string => Ok (JStr "https://bot.example.org") in
  posts (run (TelegramEngine.configure_webhook settings Sample.engine) []).1
  = [Request "https://api.telegram.org/bot123:abc/setWebhook"
       (JObj {["url" := JStr "https://bot.example.org"]})] ∧
  posts (run (TelegramEngine.configure_webhook settings Sample.engine)
           [Ok (JObj {["ok" := JBool true]})]).1
  = posts (run (TelegramEngine.configure_webhook settings Sample.engine) []).1.
Proof.
  intros settings.
  apply (configure_webhook_same_call settings Sample.engine
           (JStr "https://bot.example.org")).
  - reflexivity.
  - vm_compute. reflexivity.
Defined.

(** * Further properties of the module *)

(** ** Translation: what [TelegramUser] and [build_message] accept *)

(** A user is built exactly from an object with [id] and [first_name];
    the three optional fields are read with [None] as default
    ([language] from the key [language_code]). *)
Theorem user_init_ok_iff (sender : json) (u : TelegramUser.t) :
  TelegramUser.__init__ sender = Ok u <->
  exists fm : gmap string json,
    sender = JObj fm ∧
    fm !! "id" = Some (TelegramUser.id u) ∧
    fm !! "first_name" = Some (TelegramUser.first_name u) ∧
    TelegramUser.last_name u = default JNull (fm !! "last_name") ∧
    TelegramUser.username u = default JNull (fm !! "username") ∧
    TelegramUser.language u = default JNull (fm !! "language_code").
Proof.
  unfold TelegramUser.__init__. split.
  - destruct sender as [| | | | |fm]; try done. simpl.
    destruct (fm !! "id") as [i|] eqn:Hi; [|done].
    destruct (fm !! "first_name") as [f|] eqn:Hf; [|done].
    simpl. intros [= <-]. by exists fm.
  - intros (fm & -> & Hi & Hf & Hl & Hu & Hg). simpl. rewrite Hi, Hf. simpl.
    destruct u; simpl in *. by subst.
Qed.

(** [build_message] returns a message only for an object whose [message]
    is an object with [message_id], [text], [date] and a [from] a user can
    be built from; the message then has exactly these fields, the
    platform tag and the whole update as raw payload. *)
Theorem build_message_some_iff (self : TelegramEngine.t) (data : json)
    (msg : Message.t) :
  TelegramEngine.build_message self data = Ok (Some msg) <->
  exists (m md : gmap string json) (sender : json),
    data = JObj m ∧
    m !! "message" = Some (JObj md) ∧
    md !! "message_id" = Some (Message.id msg) ∧
    md !! "text" = Some (Message.text msg) ∧
    md !! "from" = Some sender ∧
    TelegramUser.__init__ sender = Ok (Message.user msg) ∧
    md !! "date" = Some (Message.timestamp msg) ∧
    Message.platform msg = "telegram" ∧
    Message.raw msg = data.
Proof.
  unfold TelegramEngine.build_message. split.
  - destruct data as [| | | | |m]; try done. simpl.
    destruct (m !! "message") as [v|] eqn:Hm; simpl; [|done].
    destruct (Py.truthy v) eqn:Hv; simpl; [|done].
    destruct v as [| | | | |md]; try done.
    simpl. destruct (md !! "message_id") as [i|] eqn:Hi; [|done].
    destruct (md !! "text") as [tx|] eqn:Htx; [|done].
    destruct (md !! "from") as [sender|] eqn:Hfrom; [|done]. simpl.
    destruct (TelegramUser.__init__ sender) as [u|e] eqn:Hu; [|done]. simpl.
    destruct (md !! "date") as [d|] eqn:Hd; [|done]. simpl.
    intros [= <-]. by exists m, md, sender.
  - intros (m & md & sender & -> & Hm & Hi & Htx & Hfrom & Hu & Hd & Hp & Hr).
    simpl Py.get. rewrite Hm. simpl default. cbn [mbind result_bind].
    rewrite (truthy_obj_lookup md _ _ Hi). simpl negb. cbv iota.
    rewrite (getitem_lookup md _ _ Hi), (getitem_lookup md _ _ Htx),
      (getitem_lookup md _ _ Hfrom), (getitem_lookup md _ _ Hd).
    cbn [mbind result_bind]. rewrite Hu. cbn [mbind result_bind].
    destruct msg; simpl in *. by subst.
Qed.

(** The exceptions of [build_message]: [AttributeError] (the update is no
    object), [TypeError] (a [message] or [from] that is no object) or a
    [KeyError] for one of six keys; nothing else. *)
Theorem build_message_errors (self : TelegramEngine.t) (data : json) (e : exn) :
  TelegramEngine.build_message self data = Raise e ->
  e ∈ [AttributeError; TypeError; KeyError "message_id"; KeyError "text";
       KeyError "from"; KeyError "id"; KeyError "first_name"; KeyError "date"].
Proof.
  unfold TelegramEngine.build_message, TelegramUser.__init__.
  rewrite !elem_of_cons.
  destruct data as [| | | | |m]; simpl; try (intros [= <-]; tauto).
  destruct (m !! "message") as [v|]; simpl; [|done].
  destruct (Py.truthy v); simpl; [|done].
  destruct v as [| | | | |md]; simpl; try (intros [= <-]; tauto).
  destruct (md !! "message_id"); simpl; [|intros [= <-]; tauto].
  destruct (md !! "text"); simpl; [|intros [= <-]; tauto].
  destruct (md !! "from") as [sender|]; simpl; [|intros [= <-]; tauto].
  destruct sender as [| | | | |fm]; simpl; try (intros [= <-]; tauto).
  destruct (fm !! "id"); simpl; [|intros [= <-]; tauto].
  destruct (fm !! "first_name"); simpl; [|intros [= <-]; tauto].
  destruct (md !! "date"); simpl; [done|intros [= <-]; tauto].
Qed.

Lemma build_message_errors_witness :
  KeyError "id" ∈
    [AttributeError; TypeError; KeyError "message_id"; KeyError "text";
     KeyError "from"; KeyError "id"; KeyError "first_name"; KeyError "date"].
Proof.
  refine (build_message_errors Sample.engine
            (JObj {["message" := JObj (Sample.message_from (JObj ∅))]})
            (KeyError "id") _).
  vm_compute. reflexivity.
Defined.

(** A message without [text] (a photo, a sticker) is not skipped: the
    translation raises [KeyError], whatever else the message has. *)
Theorem build_message_without_text (self : TelegramEngine.t)
    (m md : gmap string json) (message_id : json) :
  m !! "message" = Some (JObj md) ->
  md !! "message_id" = Some message_id ->
  md !! "text" = None ->
  TelegramEngine.build_message self (JObj m) = Raise (KeyError "text").
Proof.
  intros Hm Hi Htx. unfold TelegramEngine.build_message.
  simpl Py.get. rewrite Hm. simpl default. cbn [mbind result_bind].
  rewrite (truthy_obj_lookup md _ _ Hi). simpl negb. cbv iota.
  rewrite (getitem_lookup md _ _ Hi). cbn [mbind result_bind].
  simpl. by rewrite Htx.
Qed.

Lemma build_message_without_text_witness :
  TelegramEngine.build_message Sample.engine
    (JObj {["message" := JObj (<["message_id" := JNum 5]>
                               (<["date" := JNum 1000]>
                               (<["from" := JObj Sample.sender]> ∅)))]})
  = Raise (KeyError "text").
Proof.
  refine (build_message_without_text Sample.engine _ _ (JNum 5) _ _ _);
    vm_compute; reflexivity.
Defined.

(** ** The dispatch pipeline, case by case *)

Section Dispatch.

Variable view : Type.
Variable discover_view : Message.t -> option view.
Variable get_response : view -> Message.t -> result json.
Variable self : TelegramEngine.t.

Local Abbreviation handler :=
  (TelegramEngine.message_handler view discover_view get_response self).

(** The log record of a handled message. *)
Definition message_log (message : Message.t) : event :=
  Log "info" "[%s] Message from %s"
      [LStr (TelegramEngine.engine_name self); LUser (Message.user message)].

(** The call [send_message(chat_id=message.user.id, text=response,
    parser_mode='markdown')]. *)
Definition send_message_request (message : Message.t) (response : json) : request :=
  Request (TelegramAPI.make_url (TelegramEngine.api self) "send_message")
          (JObj (<["chat_id" := TelegramUser.id (Message.user message)]>
                (<["text" := response]>
                (<["parser_mode" := JStr "markdown"]> ∅)))).

Lemma send_message_allowed : "send_message" ∈ TelegramAPI.methods.
Proof. unfold TelegramAPI.methods. rewrite !elem_of_cons. tauto. Qed.

(** A handler makes at most one HTTP call, and that call is
    [send_message] to the sender of the message it translated, with the
    text the view returned. *)
Theorem message_handler_posts (data : json) (replies : list (result json)) :
  posts (run (handler data) replies).1 = [] ∨
  exists message v response,
    TelegramEngine.build_message self data = Ok (Some message) ∧
    discover_view message = Some v ∧
    get_response v message = Ok response ∧
    posts (run (handler data) replies).1 = [send_message_request message response].
Proof.
  unfold TelegramEngine.message_handler.
  destruct (TelegramEngine.build_message self data) as [[m|]|e] eqn:Hb;
    simpl ok_then; [|by left..].
  destruct (discover_view m) as [v|] eqn:Hv; [|by left].
  destruct (get_response v m) as [response|e] eqn:Hr; simpl ok_then; [|by left].
  right. exists m, v, response. repeat split; try done.
  unfold call. rewrite (getattr_allowed _ _ send_message_allowed). simpl ok_then.
  destruct replies as [|[r|e] replies]; reflexivity.
Qed.

(** A message no view matches is logged and dropped: no call, no error. *)
Theorem message_handler_no_view (data : json) (message : Message.t)
    (replies : list (result json)) :
  TelegramEngine.build_message self data = Ok (Some message) ->
  discover_view message = None ->
  run (handler data) replies = ([message_log message], Some (Ok tt)).
Proof.
  intros Hb Hv. unfold TelegramEngine.message_handler. rewrite Hb.
  simpl ok_then. by rewrite Hv.
Qed.

(** A message a view answers is logged and the answer is sent.  The
    handler returns whatever the remote replies (an [ok: false] included)
    and raises only what the call itself raised. *)
Theorem message_handler_delivery (data : json) (message : Message.t) (v : view)
    (response : json) (reply : result json) (replies : list (result json)) :
  TelegramEngine.build_message self data = Ok (Some message) ->
  discover_view message = Some v ->
  get_response v message = Ok response ->
  run (handler data) (reply :: replies)
  = ([message_log message; Post (send_message_request message response)],
     Some (match reply with
           | Ok _ => Ok tt
           | Raise e => Raise e
           end)).
Proof.
  intros Hb Hv Hr. unfold TelegramEngine.message_handler. rewrite Hb.
  simpl ok_then. rewrite Hv, Hr. simpl ok_then. unfold call.
  rewrite (getattr_allowed _ _ send_message_allowed). simpl ok_then.
  by destruct reply.
Qed.

(** When the view fails, the message is logged, nothing is sent and the
    handler ends with the exception of the view. *)
Theorem message_handler_view_fails (data : json) (message : Message.t) (v : view)
    (e : exn) (replies : list (result json)) :
  TelegramEngine.build_message self data = Ok (Some message) ->
  discover_view message = Some v ->
  get_response v message = Raise e ->
  run (handler data) replies = ([message_log message], Some (Raise e)).
Proof.
  intros Hb Hv Hr. unfold TelegramEngine.message_handler. rewrite Hb.
  simpl ok_then. by rewrite Hv, Hr.
Qed.

(** A handler ends with every exception of the translation, before the
    log record and before the resolver is asked. *)
Theorem message_handler_translation_fails (data : json) (e : exn)
    (replies : list (result json)) :
  TelegramEngine.build_message self data = Raise e ->
  run (handler data) replies = ([], Some (Raise e)).
Proof.
  intros Hb. unfold TelegramEngine.message_handler. by rewrite Hb.
Qed.

End Dispatch.

Lemma sample_message_built :
  TelegramEngine.build_message Sample.engine (JObj (Sample.update 7))
  = Ok (Some (Message.Build (JNum 5) "telegram" (JStr "hi") Sample.user
                            (JNum 1000) (JObj (Sample.update 7)))).
Proof. vm_compute. reflexivity. Qed.

Lemma message_handler_no_view_witness :
  run (TelegramEngine.message_handler unit SampleRun.no_view SampleRun.hello
         Sample.engine (JObj (Sample.update 7))) []
  = ([Log "info" "[%s] Message from %s" [LStr "telegram"; LUser Sample.user]],
     Some (Ok tt)).
Proof.
  refine (message_handler_no_view unit SampleRun.no_view SampleRun.hello
            Sample.engine (JObj (Sample.update 7)) _ [] sample_message_built _).
  reflexivity.
Defined.

Lemma message_handler_delivery_witness :
  run (TelegramEngine.message_handler unit SampleRun.any_view SampleRun.hello
         Sample.engine (JObj (Sample.update 7)))
      [Ok (JObj {["ok" := JBool false]})]
  = ([Log "info" "[%s] Message from %s" [LStr "telegram"; LUser Sample.user];
      Post SampleRun.send_hello],
     Some (Ok tt)).
Proof.
  refine (message_handler_delivery unit SampleRun.any_view SampleRun.hello
            Sample.engine (JObj (Sample.update 7)) _ tt (JStr "hello")
            (Ok (JObj {["ok" := JBool false]})) [] sample_message_built _ _);
    reflexivity.
Defined.

Lemma message_handler_view_fails_witness :
  run (TelegramEngine.message_handler unit SampleRun.any_view
         (fun _ _ => Raise TypeError) Sample.engine (JObj (Sample.update 7))) []
  = ([Log "info" "[%s] Message from %s" [LStr "telegram"; LUser Sample.user]],
     Some (Raise TypeError)).
Proof.
  refine (message_handler_view_fails unit SampleRun.any_view
            (fun _ _ => Raise TypeError) Sample.engine (JObj (Sample.update 7))
            _ tt TypeError [] sample_message_built _ _);
    reflexivity.
Defined.

Lemma message_handler_translation_fails_witness :
  run (TelegramEngine.message_handler unit SampleRun.any_view SampleRun.hello
         Sample.engine (JArr [])) []
  = ([], Some (Raise AttributeError)).
Proof.
  refine (message_handler_translation_fails unit SampleRun.any_view SampleRun.hello
            Sample.engine (JArr []) AttributeError [] _).
  reflexivity.
Defined.

(** ** What the two configuration routines register *)

Section Registration.

Variable settings : string -> result json.
Variable self : TelegramEngine.t.

(** The call [delete_webhook()]. *)
Definition delete_webhook_request : request :=
  Request (TelegramAPI.make_url (TelegramEngine.api self) "delete_webhook") (JObj ∅).

Lemma delete_webhook_allowed : "delete_webhook" ∈ TelegramAPI.methods.
Proof. unfold TelegramAPI.methods. rewrite !elem_of_cons. tauto. Qed.

Lemma set_webhook_allowed : "set_webhook" ∈ TelegramAPI.methods.
Proof. unfold TelegramAPI.methods. rewrite !elem_of_cons. tauto. Qed.

(** [configure_polling] first calls [delete_webhook] with an empty body.
    It registers the polling task, and returns, exactly when the reply is
    an object with the key [ok], whatever the value: a refusal
    ([ok: false]) registers the task all the same, only the debug record
    is left out.  Any other reply ends the routine with an exception and
    registers nothing. *)
Theorem configure_polling_registers (reply : result json)
    (replies : list (result json)) :
  let '(tr, r) := run (TelegramEngine.configure_polling self) (reply :: replies) in
  head tr = Some (Post delete_webhook_request) ∧
  (TasksAppend "polling" ∈ tr <->
   exists (m : gmap string json) (ok : json), reply = Ok (JObj m) ∧ m !! "ok" = Some ok) ∧
  (r = Some (Ok tt) <-> TasksAppend "polling" ∈ tr) ∧
  (forall m ok, reply = Ok (JObj m) -> m !! "ok" = Some ok ->
     tr = Post delete_webhook_request
          :: (if Py.truthy ok
              then [Log "debug" "[%s] Polling mode set"
                        [LStr (TelegramEngine.engine_name self)]]
              else [])
          ++ [TasksAppend "polling"]).
Proof.
  unfold TelegramEngine.configure_polling, call.
  rewrite (getattr_allowed _ _ delete_webhook_allowed). simpl ok_then.
  cbn [run]. destruct reply as [[| | | | |m]|e]; simpl ok_then;
    try (simpl; rewrite list_elem_of_singleton; repeat split; try done;
         by intros (? & ? & ? & ?)).
  simpl Py.getitem. destruct (m !! "ok") as [ok|] eqn:Hok; simpl ok_then.
  - destruct (Py.truthy ok) eqn:Ht; simpl; rewrite !elem_of_cons;
      repeat split; try done; try tauto; try (by exists m, ok);
      intros m' ok' [= <-] Hm'; rewrite Hok in Hm'; injection Hm' as <-;
      by rewrite Ht.
  - simpl. rewrite list_elem_of_singleton. repeat split; try done.
    + intros (m' & ok & [= <-] & Hm'). congruence.
    + intros m' ok [= <-] Hm'. congruence.
Qed.

(** [configure_webhook] registers the route [POST /] exactly when the
    hostname is true and the reply to [set_webhook] is an object with the
    key [ok], whatever the value: the route is added even if the remote
    refused the registration. *)
Theorem configure_webhook_registers (reply : result json)
    (replies : list (result json)) :
  let '(tr, r) := run (TelegramEngine.configure_webhook settings self)
                      (reply :: replies) in
  (RouterAddPost "/" "webhook" ∈ tr <->
   exists (hostname : json) (m : gmap string json) (ok : json),
     settings "HOSTNAME" = Ok hostname ∧ Py.truthy hostname = true ∧
     reply = Ok (JObj m) ∧ m !! "ok" = Some ok) ∧
  (r = Some (Ok tt) <-> RouterAddPost "/" "webhook" ∈ tr).
Proof.
  unfold TelegramEngine.configure_webhook.
  destruct (settings "HOSTNAME") as [hostname|e] eqn:Hs; simpl ok_then.
  2:{ simpl. rewrite elem_of_nil. repeat split; try done.
      by intros (? & ? & ? & ? & _). }
  destruct (Py.truthy hostname) eqn:Hh; simpl negb; cbv iota.
  2:{ simpl. rewrite elem_of_nil. repeat split; try done.
      intros (h & ? & ? & [= <-] & Hh' & _). congruence. }
  unfold call. rewrite (getattr_allowed _ _ set_webhook_allowed). simpl ok_then.
  cbn [run]. destruct reply as [[| | | | |m]|e]; simpl ok_then;
    try (simpl; rewrite list_elem_of_singleton; repeat split; try done;
         by intros (? & ? & ? & _ & _ & ? & _)).
  simpl Py.getitem. destruct (m !! "ok") as [ok|] eqn:Hok; simpl ok_then.
  - destruct (Py.truthy ok); simpl; rewrite !elem_of_cons;
      repeat split; try done; try tauto; by exists hostname, m, ok.
  - simpl. rewrite list_elem_of_singleton. repeat split; try done.
    intros (? & m' & ? & _ & _ & [= <-] & Hm'). congruence.
Qed.

End Registration.

Example configure_polling_refused :
  run (TelegramEngine.configure_polling Sample.engine)
      [Ok (JObj {["ok" := JBool false]})]
  = ([Post (Request "https://api.telegram.org/bot123:abc/deleteWebhook" (JObj ∅));
      TasksAppend "polling"],
     Some (Ok tt)).
Proof. vm_compute. reflexivity. Qed.

(** ** Operation names and URLs *)

(** The number of occurrences of a character. *)
Fixpoint count_char (c : ascii) (s : string) : nat :=
  match s with
  | EmptyString => 0
  | String c' s' => (if Ascii.eqb c' c then 1 else 0) + count_char c s'
  end.

Lemma string_app_cons (c : ascii) (s1 s2 : string) :
  String c s1 +:+ s2 = String c (s1 +:+ s2).
Proof. reflexivity. Qed.

Lemma string_app_empty (s : string) : EmptyString +:+ s = s.
Proof. reflexivity. Qed.

Lemma length_string_app (s1 s2 : string) :
  String.length (s1 +:+ s2) = (String.length s1 + String.length s2)%nat.
Proof.
  induction s1 as [|c s1 IH]; [done|].
  rewrite string_app_cons. simpl. by rewrite IH.
Qed.

Lemma count_char_app (c : ascii) (s1 s2 : string) :
  count_char c (s1 +:+ s2) = (count_char c s1 + count_char c s2)%nat.
Proof.
  induction s1 as [|c' s1 IH]; [done|].
  rewrite string_app_cons. simpl. rewrite IH. lia.
Qed.

Lemma string_app_inv_tail (s1 s2 s : string) : s1 +:+ s = s2 +:+ s -> s1 = s2.
Proof.
  revert s2. induction s1 as [|c1 s1 IH]; intros [|c2 s2] Heq; [done| | |].
  - apply (f_equal String.length) in Heq.
    rewrite string_app_empty, string_app_cons in Heq. simpl in Heq.
    rewrite length_string_app in Heq. lia.
  - apply (f_equal String.length) in Heq.
    rewrite string_app_empty, string_app_cons in Heq. simpl in Heq.
    rewrite length_string_app in Heq. lia.
  - rewrite !string_app_cons in Heq. injection Heq as -> Heq.
    by rewrite (IH _ Heq).
Qed.

Lemma to_lower_underscore (c : ascii) :
  Ascii.eqb (Py.to_lower c) "_" = Ascii.eqb c "_".
Proof. by destruct c as [[] [] [] [] [] [] [] []]. Qed.

Lemma to_upper_underscore (c : ascii) :
  Ascii.eqb (Py.to_upper c) "_" = Ascii.eqb c "_".
Proof. by destruct c as [[] [] [] [] [] [] [] []]. Qed.

Lemma lower_shape (s : string) :
  String.length (Py.lower s) = String.length s ∧
  count_char "_" (Py.lower s) = count_char "_" s.
Proof.
  induction s as [|c s [IHl IHc]]; [done|]. simpl.
  by rewrite IHl, IHc, to_lower_underscore.
Qed.

Lemma title_shape (cased : bool) (s : string) :
  String.length (Py.title_from cased s) = String.length s ∧
  count_char "_" (Py.title_from cased s) = count_char "_" s.
Proof.
  revert cased. induction s as [|c s IH]; intros cased; [done|]. simpl.
  destruct (Py.is_lower c || Py.is_upper c); simpl.
  - destruct (IH true) as [-> ->].
    by destruct cased; rewrite ?to_lower_underscore, ?to_upper_underscore.
  - by destruct (IH false) as [-> ->].
Qed.

(** What [split] returns: its segments are free of the separator, and
    together they are the string without its separators. *)
Lemma split_shape (sep : ascii) (s : string) :
  Forall (fun w => count_char sep w = 0%nat) (Py.split sep s) ∧
  (String.length (Py.join (Py.split sep s)) + count_char sep s)%nat = String.length s ∧
  length (Py.split sep s) = S (count_char sep s).
Proof.
  induction s as [|c s (IHf & IHl & IHn)]; [by repeat constructor|].
  simpl. destruct (Ascii.eqb c sep) eqn:Hc.
  - split; [by constructor|]. simpl. split; [|by rewrite IHn].
    unfold Py.join in *. simpl. rewrite string_app_empty. lia.
  - destruct (Py.split sep s) as [|w ws]; [done|].
    apply Forall_cons in IHf as [Hw Hws].
    split; [constructor; [simpl; by rewrite Hc, Hw|done]|].
    split; [|done]. unfold Py.join in *. simpl in *. lia.
Qed.

Lemma join_title_shape (ws : list string) :
  String.length (Py.join (Py.title <$> ws)) = String.length (Py.join ws) ∧
  (Forall (fun w => count_char "_" w = 0%nat) ws ->
   count_char "_" (Py.join (Py.title <$> ws)) = 0%nat).
Proof.
  unfold Py.join. induction ws as [|w ws [IHl IHc]]; [done|].
  rewrite fmap_cons. cbn [foldr].
  destruct (title_shape false w) as [Hl Hc]. fold (Py.title w) in Hl, Hc.
  rewrite !length_string_app, IHl, Hl.
  split; [done|]. intros [Hw Hws]%Forall_cons.
  by rewrite count_char_app, Hc, Hw, IHc.
Qed.

(** A string of ASCII characters only: on these, [Py.lower] and
    [Py.title] are Python's [lower] and [title]. *)
Fixpoint is_ascii (s : string) : bool :=
  match s with
  | EmptyString => true
  | String c s' => Nat.ltb (nat_of_ascii c) 128 && is_ascii s'
  end.

(** On an ASCII name, [mixed_case] removes every underscore and nothing
    else: the result has no underscore, and is shorter than the name by
    the number of underscores of the name. *)
Theorem mixed_case_underscores (name : string) :
  is_ascii name = true ->
  count_char "_" (mixed_case name) = 0%nat ∧
  (String.length (mixed_case name) + count_char "_" name)%nat = String.length name.
Proof.
  intros _. unfold mixed_case. destruct (split_shape "_" name) as (Hf & Hl & _).
  destruct (Py.split "_" name) as [|w ws]; [by apply Forall_nil in Hf; simpl in Hl|].
  apply Forall_cons in Hf as [Hw Hws].
  destruct (join_title_shape ws) as [Hjl Hjc].
  rewrite count_char_app, length_string_app, Hjl, (Hjc Hws).
  destruct (lower_shape w) as [-> ->]. rewrite Hw. split; [done|].
  unfold Py.join in Hl. simpl in Hl. rewrite length_string_app in Hl. exact Hl.
Qed.

Lemma mixed_case_underscores_witness :
  count_char "_" (mixed_case "delete_web_hook") = 0%nat ∧
  (String.length (mixed_case "delete_web_hook") + count_char "_" "delete_web_hook")%nat
  = String.length "delete_web_hook".
Proof.
  refine (mixed_case_underscores "delete_web_hook" _). reflexivity.
Defined.

(** A name without underscore is lower-cased as a whole, capitals inside
    it included. *)
Theorem mixed_case_single_word (name : string) :
  count_char "_" name = 0%nat -> mixed_case name = Py.lower name.
Proof.
  intros Hc. unfold mixed_case.
  assert (Hs : Py.split "_" name = [name]).
  { induction name as [|c s IH]; [done|]. simpl in *.
    destruct (Ascii.eqb c "_"); [done|]. by rewrite IH. }
  rewrite Hs. simpl. unfold Py.join. simpl.
  induction (Py.lower name) as [|c s IH]; [done|].
  by rewrite string_app_cons, IH.
Qed.

Lemma mixed_case_single_word_witness : mixed_case "getMe" = "getme".
Proof.
  refine (mixed_case_single_word "getMe" _). reflexivity.
Defined.

(** Distinct allowed operations have distinct URLs, and so have distinct
    tokens for the same operation. *)
Theorem make_url_injective (api1 api2 : TelegramAPI.t) (name1 name2 : string) :
  name1 ∈ TelegramAPI.methods ->
  name2 ∈ TelegramAPI.methods ->
  (TelegramAPI.make_url api1 name1 = TelegramAPI.make_url api1 name2 -> name1 = name2) ∧
  (TelegramAPI.make_url api1 name1 = TelegramAPI.make_url api2 name1 -> api1 = api2).
Proof.
  intros H1 H2. unfold TelegramAPI.make_url. split; intros Heq.
  - do 4 apply (inj (String.app _)) in Heq.
    apply methods_allowed in H1 as [-> | [-> | [-> | ->]]];
      apply methods_allowed in H2 as [-> | [-> | [-> | ->]]];
      done || discriminate Heq.
  - do 2 apply (inj (String.app _)) in Heq.
    apply string_app_inv_tail in Heq.
    destruct api1, api2. simpl in Heq. by rewrite Heq.
Qed.

Lemma make_url_injective_witness :
  (TelegramAPI.make_url (TelegramAPI.Build "123:abc") "set_webhook"
   = TelegramAPI.make_url (TelegramAPI.Build "123:abc") "set_webhook" ->
   "set_webhook" = "set_webhook") ∧
  (TelegramAPI.make_url (TelegramAPI.Build "123:abc") "set_webhook"
   = TelegramAPI.make_url (TelegramAPI.Build "123:abc") "set_webhook" ->
   TelegramAPI.Build "123:abc" = TelegramAPI.Build "123:abc").
Proof.
  refine (make_url_injective (TelegramAPI.Build "123:abc") (TelegramAPI.Build "123:abc")
            "set_webhook" "set_webhook" _ _);
    refine (bool_decide_unpack _ _); vm_compute; exact I.
Defined.

(** ** One iteration of the polling loop: cursor and failures *)

Section Iteration.

Variable view : Type.
Variable discover_view : Message.t -> option view.
Variable get_response : view -> Message.t -> result json.
Variable self : TelegramEngine.t.

Local Abbreviation poll :=
  (TelegramEngine.polling view discover_view get_response self).

Lemma get_updates_allowed : "get_updates" ∈ TelegramAPI.methods.
Proof. unfold TelegramAPI.methods. rewrite !elem_of_cons. tauto. Qed.

(** The cursor after a reply is read from the last update alone: earlier
    updates are not looked at (no maximum is taken, no order is checked),
    a last update without [update_id] raises [KeyError], and an empty
    batch keeps the cursor. *)
Theorem polling_cursor_last_only (last_update : json) (m : gmap string json)
    (us : list json) :
  m !! "result" = Some (JArr us) ->
  TelegramEngine.polling_cursor last_update (JObj m)
  = match last us with
    | None => Ok last_update
    | Some u => Py.getitem u "update_id"
    end.
Proof.
  intros Hm. unfold TelegramEngine.polling_cursor. simpl. rewrite Hm. simpl.
  destruct us as [|u us]; [done|].
  simpl length. cbn [Nat.eqb negb]. cbv iota.
  destruct (last (u :: us)) as [x|] eqn:Hl; [done|].
  by apply last_None in Hl.
Qed.

(** An iteration whose call fails, or whose reply is an object without
    [result], ends with that exception ([KeyError] for the missing key)
    right after the call: no handler is started and no further iteration
    is scheduled. *)
Theorem polling_bad_reply (last_update payload : json) :
  TelegramEngine.polling_payload last_update = Ok payload ->
  (forall e replies,
     run (poll last_update) (Raise e :: replies)
     = ([Post (Request (get_updates_url self) payload)], Some (Raise e))) ∧
  (forall (m : gmap string json) replies,
     m !! "result" = None ->
     run (poll last_update) (Ok (JObj m) :: replies)
     = ([Post (Request (get_updates_url self) payload)],
        Some (Raise (KeyError "result")))).
Proof.
  intros Hp. unfold TelegramEngine.polling. rewrite Hp. simpl ok_then.
  unfold call. rewrite (getattr_allowed _ _ get_updates_allowed). simpl ok_then.
  split; [done|]. intros m replies Hm. cbn [run]. simpl ok_then.
  unfold TelegramEngine.polling_cursor. simpl. by rewrite Hm.
Qed.

(** A cursor that is a non-empty string, list or object (a string
    identifier, say) ends the iteration with [TypeError] before any call
    is made. *)
Theorem polling_cursor_not_a_number (last_update : json)
    (replies : list (result json)) :
  Py.truthy last_update = true ->
  (exists s, last_update = JStr s) ∨ (exists l, last_update = JArr l) ∨
  (exists m, last_update = JObj m) ->
  run (poll last_update) replies = ([], Some (Raise TypeError)).
Proof.
  intros Ht Hshape. unfold TelegramEngine.polling, TelegramEngine.polling_payload.
  rewrite Ht. by destruct Hshape as [[s ->]|[[l ->]|[m ->]]].
Qed.

End Iteration.

Lemma polling_cursor_last_only_witness :
  TelegramEngine.polling_cursor (JNum 9)
    (Sample.updates [JObj (Sample.update 8); JObj (Sample.update 3)])
  = Ok (JNum 3).
Proof.
  refine (polling_cursor_last_only (JNum 9) _
            [JObj (Sample.update 8); JObj (Sample.update 3)] _).
  vm_compute. reflexivity.
Defined.

Lemma polling_bad_reply_witness :
  run (TelegramEngine.polling unit SampleRun.no_view SampleRun.hello Sample.engine
         (JNum 7)) [Ok (JObj {["ok" := JBool false]})]
  = ([Post (SampleRun.get_updates (JObj {["offset" := JNum 8]}))],
     Some (Raise (KeyError "result"))).
Proof.
  refine (proj2 (polling_bad_reply unit SampleRun.no_view SampleRun.hello Sample.engine
                   (JNum 7) (JObj {["offset" := JNum 8]}) _)
            {["ok" := JBool false]} [] _).
  - reflexivity.
  - vm_compute. reflexivity.
Defined.

Lemma polling_cursor_not_a_number_witness :
  run (TelegramEngine.polling unit SampleRun.no_view SampleRun.hello Sample.engine
         (JStr "7")) []
  = ([], Some (Raise TypeError)).
Proof.
  refine (polling_cursor_not_a_number unit SampleRun.no_view SampleRun.hello
            Sample.engine (JStr "7") [] _ _); [reflexivity|].
  left. by exists "7".
Defined.

(** ** Runs of the loop: what is called, and what a failure ends *)

Section Runs.

Variable view : Type.
Variable discover_view : Message.t -> option view.
Variable get_response : view -> Message.t -> result json.
Variable self : TelegramEngine.t.

Local Abbreviation run_handler :=
  (TelegramEngine.message_handler view discover_view get_response self).
Local Abbreviation run_polling :=
  (TelegramEngine.polling view discover_view get_response self).
Local Abbreviation run_webhook :=
  (TelegramEngine.webhook view discover_view get_response self).
Local Abbreviation run_step := (step view discover_view get_response self).
Local Abbreviation run_exec := (exec view discover_view get_response self).

(** A step changes the task it resumes and may add tasks at the end;
    it leaves every other task alone. *)
Lemma step_other (p p' : list task) (c : pick) (evs : list event) (j : nat) (t : task) :
  run_step p c = Some (evs, p') -> j ≠ task_id c -> p !! j = Some t ->
  p' !! j = Some t.
Proof.
  intros Hstep Hne Hj. unfold step in Hstep.
  assert (Hins : forall t', <[task_id c := t']> p !! j = Some t).
  { intros t'. by rewrite list_lookup_insert_ne. }
  destruct (p !! task_id c) as [[[r|ev k|rq k|cs k|lu k]|k|children k]|]; try done;
    try (injection Hstep as <- <-; apply Hins);
    try (injection Hstep as <- <-; apply lookup_app_l_Some, Hins).
  destruct (raised_child p children (child c));
    [|destruct (all_returned p children); [|done]];
    injection Hstep as <- <-; apply Hins.
Qed.

Lemma step_keeps_finished (p p' : list task) (c : pick) (evs : list event)
    (j : nat) (t : task) :
  run_step p c = Some (evs, p') -> p !! j = Some t -> finished t = true ->
  p' !! j = Some t.
Proof.
  intros Hstep Hj Hf. destruct (decide (j = task_id c)) as [->|Hne].
  - by rewrite (step_finished _ _ _ _ _ _ _ Hj Hf) in Hstep.
  - by eapply step_other.
Qed.

Lemma exec_keeps_finished (sched : list pick) (p : list task) (j : nat) (t : task) :
  p !! j = Some t -> finished t = true -> (run_exec sched p).2 !! j = Some t.
Proof.
  revert p. induction sched as [|c sched IH]; intros p Hj Hf; [done|].
  simpl. destruct (run_step p c) as [[evs p']|] eqn:Hstep; [|by apply IH].
  specialize (IH p' (step_keeps_finished _ _ _ _ _ _ Hstep Hj Hf) Hf).
  by destruct (run_exec sched p').
Qed.

(** Once every task is a handler, no run posts [get_updates]. *)
Lemma exec_quiet (sched : list pick) (p : list task) :
  (forall j t, p !! j = Some t -> quiet_task self t) ->
  Forall (no_poll self) (run_exec sched p).1.
Proof.
  revert p. induction sched as [|c sched IH]; intros p Hq; [constructor|].
  simpl. destruct (run_step p c) as [[evs p']|] eqn:Hstep; [|by apply IH].
  destruct (p !! task_id c) as [t|] eqn:Ht;
    [|by unfold step in Hstep; rewrite Ht in Hstep].
  destruct (step_quiet _ _ _ _ _ _ _ _ _ Ht (Hq _ _ Ht) Hstep) as [(t' & -> & Hq') Hevs].
  assert (Hq'' : forall j tj, <[task_id c := t']> p !! j = Some tj -> quiet_task self tj).
  { intros j tj Hj. destruct (decide (j = task_id c)) as [->|Hne].
    - rewrite list_lookup_insert_eq in Hj by (by eapply lookup_lt_Some).
      by injection Hj as <-.
    - rewrite list_lookup_insert_ne in Hj by done. by eapply Hq. }
  specialize (IH _ Hq''). destruct (run_exec sched (<[task_id c := t']> p)).
  simpl in *. by apply Forall_app.
Qed.

(** When [gather] passes the exception of a handler on, the polling task
    ends with it, and from then on no run of the loop posts [get_updates]
    again: one failing handler ends the polling for good. *)
Theorem polling_stops_after_failure (last_update : json) (sched sched' : list pick)
    (c : pick) (children : list nat) (k : coro) (e : exn) :
  let p := (run_exec sched [Running (run_polling last_update)]).2 in
  p !! task_id c = Some (Joining children k) ->
  raised_child p children (child c) = Some e ->
  (run_exec (c :: sched') p).2 !! task_id c = Some (Running (Done (Raise e))) ∧
  Forall (no_poll self) (run_exec (c :: sched') p).1.
Proof.
  intros p Hc He.
  pose proof (exec_inv view discover_view get_response self sched _
                (polling_inv view discover_view get_response self last_update))
    as Hinv.
  change (loop_inv self p) in Hinv.
  assert (Hlt : (task_id c < length p)%nat) by (by eapply lookup_lt_Some).
  assert (Hstep : run_step p c
                  = Some ([], <[task_id c := Running (Done (Raise e))]> p)).
  { unfold step. by rewrite Hc, He. }
  assert (Hq : forall j t, <[task_id c := Running (Done (Raise e))]> p !! j = Some t ->
                           quiet_task self t).
  { intros j t Hj. destruct (decide (j = task_id c)) as [->|Hne].
    { rewrite list_lookup_insert_eq in Hj by done. injection Hj as <-. constructor. }
    rewrite list_lookup_insert_ne in Hj by done.
    destruct Hinv as [Hq | i ti Hi Hs Hfin | i children' k' Hi Hk Hrest].
    - by eapply Hq.
    - destruct (decide (task_id c = i)) as [Hci|Hci].
      + rewrite Hci, Hi in Hc. injection Hc as ->. done.
      + by specialize (Hfin _ _ Hci Hc).
    - destruct (decide (task_id c = i)) as [Hci|Hci].
      + rewrite Hci in Hne. destruct (Hrest _ _ Hne Hj) as [Hf|[_ Hqt]];
          [by apply finished_quiet|done].
      + destruct (Hrest _ _ Hci Hc) as [Hf|[_ Hqt]]; done. }
  cbn [exec]. rewrite Hstep.
  pose proof (exec_quiet sched' _ Hq) as Htr.
  pose proof (exec_keeps_finished sched' (<[task_id c := Running (Done (Raise e))]> p)
                (task_id c) (Running (Done (Raise e)))) as Hkeep.
  rewrite list_lookup_insert_eq in Hkeep by done. specialize (Hkeep eq_refl eq_refl).
  destruct (run_exec sched' (<[task_id c := Running (Done (Raise e))]> p)).
  simpl in *. done.
Qed.

End Runs.

Lemma polling_stops_after_failure_witness :
  let start := [Running (TelegramEngine.polling unit SampleRun.any_view SampleRun.hello
                           Sample.engine JNull)] in
  let batch := Sample.updates [JObj (Sample.update 7); JObj Sample.edited] in
  let sched := [SampleRun.resume 0; SampleRun.deliver 0 batch; SampleRun.resume 0] in
  let sched' := [SampleRun.resume 1; SampleRun.resume 1; SampleRun.deliver 1 JNull;
                 SampleRun.resume 0; SampleRun.resume 3] in
  let p := (exec unit SampleRun.any_view SampleRun.hello Sample.engine sched start).2 in
  (exec unit SampleRun.any_view SampleRun.hello Sample.engine
     (Pick 0 (Ok JNull) 1 :: sched') p).2 !! 0%nat
  = Some (Running (Done (Raise AttributeError))) ∧
  Forall (no_poll Sample.engine)
    (exec unit SampleRun.any_view SampleRun.hello Sample.engine
       (Pick 0 (Ok JNull) 1 :: sched') p).1.
Proof.
  intros start batch sched sched' p.
  refine (polling_stops_after_failure unit SampleRun.any_view SampleRun.hello
            Sample.engine JNull sched sched' (Pick 0 (Ok JNull) 1) [1; 2]%nat
            (EnsureFuturePolling (JNum 7) (Done (Ok tt))) AttributeError _ _);
    vm_compute; reflexivity.
Defined.

(** After the polling task has died of the second handler, the first
    handler still delivers its answer. *)
Example polling_failure_leaves_handlers :
  let start := [Running (TelegramEngine.polling unit SampleRun.any_view SampleRun.hello
                           Sample.engine JNull)] in
  let batch := Sample.updates [JObj (Sample.update 7); JObj Sample.edited] in
  posts (exec unit SampleRun.any_view SampleRun.hello Sample.engine
           [SampleRun.resume 0; SampleRun.deliver 0 batch; SampleRun.resume 0;
            Pick 0 (Ok JNull) 1;
            SampleRun.resume 1; SampleRun.resume 1; SampleRun.deliver 1 JNull;
            SampleRun.resume 0; SampleRun.resume 3] start).1
  = [SampleRun.get_updates (JObj ∅); SampleRun.send_hello].
Proof. vm_compute. reflexivity. Qed.

Section Calls.

Variable view : Type.
Variable discover_view : Message.t -> option view.
Variable get_response : view -> Message.t -> result json.
Variable self : TelegramEngine.t.

(** The two calls of the polling loop: [get_updates], with no argument or
    with [offset] alone, and [send_message], with [chat_id], [text] and
    [parser_mode='markdown']. *)
Definition loop_call (rq : request) : Prop :=
  (url rq = get_updates_url self ∧
   (body rq = JObj ∅ ∨ exists offset, body rq = JObj {["offset" := offset]})) ∨
  (url rq = TelegramAPI.make_url (TelegramEngine.api self) "send_message" ∧
   exists chat_id text,
     body rq = JObj (<["chat_id" := chat_id]> (<["text" := text]>
                    (<["parser_mode" := JStr "markdown"]> ∅)))).

Definition loop_event (ev : event) : Prop :=
  match ev with
  | Post rq => loop_call rq
  | _ => True
  end.

(** A coroutine all of whose calls, on every path, are calls of the loop. *)
Inductive calls_loop : coro -> Prop :=
| calls_done r : calls_loop (Done r)
| calls_do ev k : loop_event ev -> calls_loop k -> calls_loop (Do ev k)
| calls_await rq k :
    loop_call rq -> (forall r, calls_loop (k r)) -> calls_loop (Await rq k)
| calls_gather cs k :
    Forall calls_loop cs -> calls_loop k -> calls_loop (Gather cs k)
| calls_ensure_future last_update k :
    calls_loop k -> calls_loop (EnsureFuturePolling last_update k).

Definition task_calls_loop (t : task) : Prop :=
  match t with
  | Running c => calls_loop c
  | Awaiting k => forall r, calls_loop (k r)
  | Joining _ k => calls_loop k
  end.

Lemma message_handler_calls (data : json) :
  calls_loop (TelegramEngine.message_handler view discover_view get_response self data).
Proof.
  unfold TelegramEngine.message_handler.
  destruct (TelegramEngine.build_message self data) as [[m|]|e]; simpl ok_then;
    try constructor; [exact I|].
  destruct (discover_view m) as [v|]; [|constructor].
  destruct (get_response v m) as [response|e]; simpl ok_then; [|constructor].
  unfold call. rewrite (getattr_allowed _ _ send_message_allowed). simpl ok_then.
  constructor.
  - right. split; [done|]. by eexists _, _.
  - intros [r|e]; simpl; constructor.
Qed.

Lemma polling_calls (last_update : json) :
  calls_loop (TelegramEngine.polling view discover_view get_response self last_update).
Proof.
  unfold TelegramEngine.polling, TelegramEngine.polling_payload.
  assert (Hk : forall payload,
    (payload = JObj ∅ ∨ exists offset, payload = JObj {["offset" := offset]}) ->
    calls_loop
      (call (TelegramEngine.api self) "get_updates" payload (fun reply =>
       ok_then reply (fun updates =>
       ok_then (TelegramEngine.polling_cursor last_update updates) (fun last_update =>
       ok_then (Py.getitem updates "result" ≫= Py.iter) (fun msgs =>
       Gather (TelegramEngine.message_handler view discover_view get_response self
                 <$> msgs)
         (EnsureFuturePolling last_update (Done (Ok tt))))))))).
  { intros payload Hp. unfold call.
    rewrite (getattr_allowed _ _ get_updates_allowed). simpl ok_then.
    constructor; [by left|]. intros [updates|e]; simpl ok_then; [|constructor].
    destruct (TelegramEngine.polling_cursor last_update updates) as [cursor|e];
      simpl ok_then; [|constructor].
    destruct (Py.getitem updates "result" ≫= Py.iter) as [msgs|e]; simpl ok_then;
      [|constructor].
    constructor; [|repeat constructor].
    apply Forall_fmap, Forall_forall. intros data _. apply message_handler_calls. }
  destruct (Py.truthy last_update).
  - destruct (Py.add1 last_update) as [offset|e]; simpl; [|constructor].
    apply Hk. right. by exists offset.
  - simpl. apply Hk. by left.
Qed.

Lemma step_calls (p p' : list task) (c : pick) (evs : list event) :
  Forall task_calls_loop p ->
  step view discover_view get_response self p c = Some (evs, p') ->
  Forall task_calls_loop p' ∧ Forall loop_event evs.
Proof.
  intros Hp Hstep. unfold step in Hstep.
  destruct (p !! task_id c) as [t|] eqn:Ht; [|done].
  pose proof (Forall_lookup_1 _ _ _ _ Hp Ht) as Hc.
  destruct t as [[r|ev k|rq k|cs k|lu k]|k|children k]; simpl in Hc.
  - done.
  - injection Hstep as <- <-. inversion_clear Hc.
    split; [by apply Forall_insert|constructor; [done|constructor]].
  - injection Hstep as <- <-. inversion_clear Hc.
    split; [by apply Forall_insert|constructor; [done|constructor]].
  - injection Hstep as <- <-. inversion_clear Hc. split; [|constructor].
    apply Forall_app. split; [by apply Forall_insert|by apply Forall_fmap].
  - injection Hstep as <- <-. inversion_clear Hc. split; [|constructor].
    apply Forall_app. split; [by apply Forall_insert|].
    constructor; [apply polling_calls|constructor].
  - injection Hstep as <- <-. split; [|constructor].
    apply Forall_insert; [done|apply Hc].
  - destruct (raised_child p children (child c));
      [|destruct (all_returned p children); [|done]];
      injection Hstep as <- <-; (split; [|constructor]);
      apply Forall_insert; done || constructor.
Qed.

(** In every run of the polling loop, every HTTP call is [get_updates]
    (with no argument or an offset) or [send_message]: the loop never
    registers or deletes a webhook, and never calls anything else. *)
Theorem polling_calls_only (last_update : json) (sched : list pick) :
  Forall loop_call
    (posts (exec view discover_view get_response self sched
              [Running (TelegramEngine.polling view discover_view get_response self
                          last_update)]).1).
Proof.
  assert (Hgen : forall p, Forall task_calls_loop p ->
            Forall loop_event (exec view discover_view get_response self sched p).1).
  { induction sched as [|c sched' IH]; intros p Hp; [constructor|].
    simpl. destruct (step view discover_view get_response self p c)
      as [[evs p']|] eqn:Hstep; [|by apply IH].
    destruct (step_calls _ _ _ _ Hp Hstep) as [Hp' Hevs].
    specialize (IH _ Hp').
    destruct (exec view discover_view get_response self sched' p').
    simpl in *. by apply Forall_app. }
  specialize (Hgen [Running (TelegramEngine.polling view discover_view get_response
                               self last_update)]).
  unfold posts. apply Forall_forall. intros rq [ev [Hin Hev]]%list_elem_of_omap.
  destruct ev as [rq'| | |]; try done. injection Hev as ->.
  assert (Hall : Forall task_calls_loop
            [Running (TelegramEngine.polling view discover_view get_response self
                        last_update)]).
  { constructor; [apply polling_calls|constructor]. }
  specialize (Hgen Hall). rewrite Forall_forall in Hgen. exact (Hgen _ Hin).
Qed.

End Calls.

(** ** The webhook request handler *)

Section Webhook.

Variable view : Type.
Variable discover_view : Message.t -> option view.
Variable get_response : view -> Message.t -> result json.
Variable self : TelegramEngine.t.

Local Abbreviation hook :=
  (TelegramEngine.webhook view discover_view get_response self).
Local Abbreviation hook_handler :=
  (TelegramEngine.message_handler view discover_view get_response self).
Local Abbreviation hook_step := (step view discover_view get_response self).
Local Abbreviation hook_exec := (exec view discover_view get_response self).

(** The states of a loop that serves one webhook request whose body
    decoded: the request handler has not started, or waits in [gather]
    for the message handler (task 1), or has returned after it, or has
    raised what it raised.  A message handler that is finished from the
    start stays as it is. *)
Inductive webhook_inv (update : json) (p : list task) : Prop :=
| webhook_start : p = [Running (hook (Ok update))] -> webhook_inv update p
| webhook_waits t :
    p = [Joining [1%nat] (Done (Ok tt)); t] -> quiet_task self t ->
    (forall r, hook_handler update = Done r -> t = Running (Done r)) ->
    webhook_inv update p
| webhook_returned u :
    p = [Running (Done (Ok tt)); Running (Done (Ok u))] ->
    (forall r, hook_handler update = Done r -> r = Ok u) ->
    webhook_inv update p
| webhook_raised e :
    p = [Running (Done (Raise e)); Running (Done (Raise e))] ->
    (forall r, hook_handler update = Done r -> r = Raise e) ->
    webhook_inv update p.

Lemma webhook_step_inv (update : json) (p p' : list task) (c : pick)
    (evs : list event) :
  webhook_inv update p -> hook_step p c = Some (evs, p') -> webhook_inv update p'.
Proof.
  intros [-> | t -> Hq Hh | u -> _ | e -> _] Hstep.
  - unfold step in Hstep. destruct (task_id c) as [|i]; simpl in Hstep; [|done].
    injection Hstep as <- <-. simpl.
    eapply webhook_waits; [done|apply message_handler_quiet|].
    intros r Hr. by rewrite Hr.
  - destruct (task_id c) as [|[|i]] eqn:Hc.
    + unfold step in Hstep. rewrite Hc in Hstep. simpl in Hstep.
      unfold raised_child, all_returned in Hstep.
      assert (Hret : returned t = true -> exists u, t = Running (Done (Ok u))).
      { destruct t as [[[u|]| | | |]| |]; try done. by exists u. }
      assert (Hrai : forall e, raised t = Some e -> t = Running (Done (Raise e))).
      { destruct t as [[[|e']| | | |]| |]; try done. by intros e [= ->]. }
      destruct (child c) as [|n]; simpl in Hstep.
      * destruct (raised t) as [e|] eqn:He.
        { injection Hstep as <- <-. rewrite (Hrai _ eq_refl) in *.
          eapply webhook_raised; [done|]. intros r Hr. by injection (Hh _ Hr) as ->. }
        destruct (returned t) eqn:Hr; [|done]. injection Hstep as <- <-.
        destruct (Hret eq_refl) as [u ->].
        eapply webhook_returned; [done|]. intros r Hr'. by injection (Hh _ Hr') as ->.
      * destruct (returned t) eqn:Hr; [|done]. injection Hstep as <- <-.
        destruct (Hret eq_refl) as [u ->].
        eapply webhook_returned; [done|]. intros r Hr'. by injection (Hh _ Hr') as ->.
    + assert (Ht : [Joining [1%nat] (Done (Ok tt)); t] !! task_id c = Some t)
        by (by rewrite Hc).
      destruct (step_quiet _ _ _ _ _ _ _ _ _ Ht Hq Hstep) as [(t' & -> & Hq') _].
      rewrite Hc. simpl. eapply webhook_waits; [done|done|].
      intros r Hr. rewrite (Hh _ Hr) in Ht, Hstep.
      by rewrite (step_finished _ _ _ _ _ _ _ Ht eq_refl) in Hstep.
    + unfold step in Hstep. by rewrite Hc in Hstep.
  - unfold step in Hstep. by destruct (task_id c) as [|[|i]].
  - unfold step in Hstep. by destruct (task_id c) as [|[|i]].
Qed.

Lemma webhook_exec_inv (update : json) (sched : list pick) (p : list task) :
  webhook_inv update p -> webhook_inv update (hook_exec sched p).2.
Proof.
  revert p. induction sched as [|c sched IH]; intros p Hp; [done|].
  simpl. destruct (hook_step p c) as [[evs p']|] eqn:Hstep; [|by apply IH].
  specialize (IH p' (webhook_step_inv _ _ _ _ _ Hp Hstep)).
  by destruct (hook_exec sched p').
Qed.

(** In every run, a [webhook] whose request body does not decode ends
    with the exception of the decoding, and no message handler is ever
    started.  Otherwise it returns its empty response only after the
    message handler has returned, and if it does not return it ends with
    the exception the message handler raised: a failure of the handler
    is a failure of the request. *)
Theorem webhook_result (request : result json) (sched : list pick) (r : result unit) :
  let p := (hook_exec sched [Running (hook request)]).2 in
  p !! 0%nat = Some (Running (Done r)) ->
  match request with
  | Raise e => r = Raise e ∧ length p = 1%nat
  | Ok _ =>
      match r with
      | Ok _ => exists u, p !! 1%nat = Some (Running (Done (Ok u)))
      | Raise e => p !! 1%nat = Some (Running (Done (Raise e)))
      end
  end.
Proof.
  intros p H0. destruct request as [update|e].
  - pose proof (webhook_exec_inv update sched _ (webhook_start update _ eq_refl))
      as Hinv.
    change (webhook_inv update p) in Hinv.
    destruct Hinv as [Hp | t Hp _ _ | u Hp _ | e Hp _]; rewrite Hp in H0 |- *;
      simpl in H0; try done; injection H0 as <-; simpl; eauto.
  - subst p. simpl in *. rewrite exec_finished_task in H0 |- *.
    simpl in *. by injection H0 as <-.
Qed.

(** For a request whose body decodes to an update without a message, no
    run of [webhook] returns the response: the request handler can only
    end with [AttributeError]. *)
Theorem webhook_without_message (update : json) (sched : list pick) (r : result unit) :
  TelegramEngine.build_message self update = Ok None ->
  (hook_exec sched [Running (hook (Ok update))]).2 !! 0%nat = Some (Running (Done r)) ->
  r = Raise AttributeError.
Proof.
  intros Hb H0.
  pose proof (message_handler_no_message view discover_view get_response self
                update Hb) as Hh.
  pose proof (webhook_exec_inv update sched _ (webhook_start update _ eq_refl)) as Hinv.
  destruct Hinv as [Hp | t Hp _ _ | u Hp Hr | e Hp Hr]; rewrite Hp in H0;
    simpl in H0; try done; injection H0 as <-.
  - by specialize (Hr _ Hh).
  - by injection (Hr _ Hh) as <-.
Qed.

End Webhook.

Lemma webhook_result_witness :
  (exec unit SampleRun.any_view SampleRun.hello Sample.engine
     [SampleRun.resume 0; SampleRun.resume 1; SampleRun.resume 1;
      SampleRun.deliver 1 JNull; SampleRun.resume 0]
     [Running (TelegramEngine.webhook unit SampleRun.any_view SampleRun.hello
                 Sample.engine (Ok (JObj (Sample.update 7))))]).2 !! 1%nat
  = Some (Running (Done (Ok tt))).
Proof.
  destruct (webhook_result unit SampleRun.any_view SampleRun.hello Sample.engine
              (Ok (JObj (Sample.update 7)))
              [SampleRun.resume 0; SampleRun.resume 1; SampleRun.resume 1;
               SampleRun.deliver 1 JNull; SampleRun.resume 0]
              (Ok tt)) as [[] Hu].
  - vm_compute. reflexivity.
  - exact Hu.
Defined.

(** A body that is no JSON: the request ends with the decoding error. *)
Example webhook_undecodable_body :
  exec unit SampleRun.any_view SampleRun.hello Sample.engine
    [SampleRun.resume 0; SampleRun.resume 1]
    [Running (TelegramEngine.webhook unit SampleRun.any_view SampleRun.hello
                Sample.engine (Raise (RemoteError "JSONDecodeError")))]
  = ([], [Running (Done (Raise (RemoteError "JSONDecodeError")))]).
Proof. vm_compute. reflexivity. Qed.

Lemma webhook_without_message_witness :
  exists r,
    (exec unit SampleRun.any_view SampleRun.hello Sample.engine
       [SampleRun.resume 0; SampleRun.resume 0]
       [Running (TelegramEngine.webhook unit SampleRun.any_view SampleRun.hello
                   Sample.engine (Ok (JObj Sample.edited)))]).2 !! 0%nat
    = Some (Running (Done r)) ∧
    r = Raise AttributeError.
Proof.
  exists (Raise AttributeError). split; [vm_compute; reflexivity|].
  refine (webhook_without_message unit SampleRun.any_view SampleRun.hello Sample.engine
            (JObj Sample.edited) [SampleRun.resume 0; SampleRun.resume 0]
            (Raise AttributeError) _ _); vm_compute; reflexivity.
Defined.

(** ** From one call to the next *)

(** An iteration with cursor [last_update] posts [get_updates] with the
    payload of that cursor.  If the reply is a batch whose last update has
    the non-zero identifier [i], the iteration gathers the handlers of
    the batch and schedules an iteration which posts [get_updates] with
    [offset = i + 1]; if the batch is empty, it schedules the next
    iteration with the same cursor. *)
Theorem polling_next_call (view : Type) (discover_view : Message.t -> option view)
    (get_response : view -> Message.t -> result json) (self : TelegramEngine.t)
    (last_update payload : json) (us : list json) (mu : gmap string json) (i : Z) :
  TelegramEngine.polling_payload last_update = Ok payload ->
  mu !! "update_id" = Some (JNum i) ->
  i ≠ 0 ->
  exists k,
    TelegramEngine.polling view discover_view get_response self last_update
    = Await (Request (get_updates_url self) payload) k ∧
    (forall m : gmap string json,
       m !! "result" = Some (JArr (us ++ [JObj mu])) ->
       k (Ok (JObj m))
       = Gather (TelegramEngine.message_handler view discover_view get_response self
                   <$> (us ++ [JObj mu]))
                (EnsureFuturePolling (JNum i) (Done (Ok tt))) ∧
       exists k',
         TelegramEngine.polling view discover_view get_response self (JNum i)
         = Await (Request (get_updates_url self) (JObj {["offset" := JNum (i + 1)]})) k') ∧
    (forall m : gmap string json,
       m !! "result" = Some (JArr []) ->
       k (Ok (JObj m)) = Gather [] (EnsureFuturePolling last_update (Done (Ok tt)))).
Proof.
  intros Hp Hmu Hi.
  destruct (polling_iteration view discover_view get_response self _ _ Hp)
    as (k & Hpoll & Hk).
  exists k. split; [exact Hpoll|]. split.
  - intros m Hm. split.
    + apply Hk; [done|]. by eapply polling_cursor_last.
    + destruct (polling_iteration view discover_view get_response self _ _
                  (polling_payload_nonzero i Hi)) as (k' & Hpoll' & _).
      by exists k'.
  - intros m Hm. rewrite (Hk m [] last_update Hm); [done|].
    by apply polling_cursor_empty.
Qed.

Lemma polling_next_call_witness :
  exists k,
    TelegramEngine.polling unit SampleRun.no_view SampleRun.hello Sample.engine JNull
    = Await (Request (get_updates_url Sample.engine) (JObj ∅)) k.
Proof.
  destruct (polling_next_call unit SampleRun.no_view SampleRun.hello Sample.engine
              JNull (JObj ∅) [] (Sample.update 7) 7) as (k & Hk & _).
  - reflexivity.
  - vm_compute. reflexivity.
  - discriminate.
  - exists k. exact Hk.
Defined.
